(** * Multi-Agent-Chat: the turn pipeline of [handleSubmit] (src/index.tsx)

    A shallow embedding of the submit handler of the chat client: the
    conversation builder, the memory extraction task, the three-stage
    multi-agent pipeline, the image-model bypass and the error mapping.

    The hosted model is a black box.  One turn is run against an
    environment [Env] that fixes, for every call slot of the turn, how long
    the call takes and whether it fulfils (with which response) or rejects
    (with which thrown value).  Time is logical: a natural number of
    milliseconds counted from the moment the handler is entered; local work
    (trimming, file reads, prompt construction) takes no time. *)

From Stdlib Require Import String Ascii List Bool Arith PeanoNat Lia.
Import ListNotations.
Local Open Scope list_scope.
Local Open Scope string_scope.

Set Implicit Arguments.

(** ** JavaScript strings

    Strings are UTF-8 byte strings.  [dq] and [nl] are the double quote and
    the line feed that the source writes inside its literals. *)
Module Js.

Definition dq : string := String "034"%char EmptyString.
Definition nl : string := String "010"%char EmptyString.

(** [s.length === 0], the falsiness test of a string. *)
Definition isEmpty (s : string) : bool :=
  match s with EmptyString => true | String _ _ => false end.

(** White space removed by [String.prototype.trim]: WhiteSpace and
    LineTerminator of ECMAScript, in their UTF-8 encodings.
    One byte: U+0009..U+000D, U+0020. *)
Definition isWs1 (a : ascii) : bool :=
  let n := nat_of_ascii a in
  (((9 <=? n) && (n <=? 13)) || (n =? 32))%nat.

(** Two bytes: U+00A0 (C2 A0). *)
Definition isWs2 (a b : ascii) : bool :=
  ((nat_of_ascii a =? 194) && (nat_of_ascii b =? 160))%nat.

(** Three bytes: U+1680 (E1 9A 80), U+2000..U+200A (E2 80 80..8A),
    U+2028, U+2029 (E2 80 A8, A9), U+202F (E2 80 AF), U+205F (E2 81 9F),
    U+3000 (E3 80 80), U+FEFF (EF BB BF). *)
Definition isWs3 (a b c : ascii) : bool :=
  let x := nat_of_ascii a in
  let y := nat_of_ascii b in
  let z := nat_of_ascii c in
  (((x =? 225) && (y =? 154) && (z =? 128))
   || ((x =? 226) && (y =? 128)
       && (((128 <=? z) && (z <=? 138)) || (z =? 168) || (z =? 169) || (z =? 175)))
   || ((x =? 226) && (y =? 129) && (z =? 159))
   || ((x =? 227) && (y =? 128) && (z =? 128))
   || ((x =? 239) && (y =? 187) && (z =? 191)))%nat.

(** The string consists of white space only. *)
Fixpoint allWs (s : string) : bool :=
  match s with
  | EmptyString => true
  | String a r1 =>
    if isWs1 a then allWs r1 else
    match r1 with
    | EmptyString => false
    | String b r2 =>
      if isWs2 a b then allWs r2 else
      match r2 with
      | EmptyString => false
      | String c r3 => if isWs3 a b c then allWs r3 else false
      end
    end
  end.

Fixpoint trimStart (s : string) : string :=
  match s with
  | EmptyString => EmptyString
  | String a r1 =>
    if isWs1 a then trimStart r1 else
    match r1 with
    | EmptyString => s
    | String b r2 =>
      if isWs2 a b then trimStart r2 else
      match r2 with
      | EmptyString => s
      | String c r3 => if isWs3 a b c then trimStart r3 else s
      end
    end
  end.

Fixpoint trimEnd (s : string) : string :=
  match s with
  | EmptyString => EmptyString
  | String a r => if allWs s then EmptyString else String a (trimEnd r)
  end.

(** [s.trim()]. *)
Definition trim (s : string) : string := trimEnd (trimStart s).

(** [s.includes(sub)] on strings. *)
Fixpoint includes (s sub : string) : bool :=
  match s with
  | EmptyString => prefix sub EmptyString
  | String _ r => prefix sub s || includes r sub
  end.

(** [arr.includes(x)] on an array of strings (SameValueZero is string
    equality here). *)
Definition arrayIncludes (arr : list string) (x : string) : bool :=
  existsb (String.eqb x) arr.

(** [arr.join(sep)] on an array of strings. *)
Definition join (sep : string) (arr : list string) : string :=
  String.concat sep arr.

(** A value of type [string | undefined] inside a template literal or under
    [join]. *)
Definition interpolate (v : option string) : string :=
  match v with Some s => s | None => "undefined" end.

Definition joinItem (v : option string) : string :=
  match v with Some s => s | None => EmptyString end.

(** [arr.filter((_, i) => i !== index)], counting from [from]. *)
Fixpoint filterIndexNe {A : Type} (from index : nat) (arr : list A) : list A :=
  match arr with
  | [] => []
  | x :: rest =>
    if (from =? index)%nat then filterIndexNe (S from) index rest
    else x :: filterIndexNe (S from) index rest
  end.

(** [arr.map((x, i) => f(x, i))], counting from [from]. *)
Fixpoint mapi {A B : Type} (f : A -> nat -> B) (from : nat) (arr : list A) : list B :=
  match arr with
  | [] => []
  | x :: rest => f x from :: mapi f (S from) rest
  end.

(** [arr[i]] inside a template literal, for an array of [string | undefined]. *)
Definition at_ (arr : list (option string)) (i : nat) : string :=
  match nth_error arr i with
  | Some v => interpolate v
  | None => "undefined"
  end.

End Js.

Import Js.

(** ** Data model *)

Inductive Role : Type := User | Model.

(** A [Part] of the SDK: a text segment or an inline blob.  The text of a
    text part may be [undefined] (line 1271 builds [{ text: finalResult.text }]
    from a getter of type [string | undefined]). *)
Inductive Part : Type :=
| TextPart (text : option string)
| InlineData (mimeType data : string).

Record Content : Type := mkContent { role : Role; parts : list Part }.

(** A browser [File]: [handle] stands for the identity of the object. *)
Record File : Type := mkFile { handle : nat; name : string; type : string }.

Record GroundingChunk : Type := mkChunk { uri : option string; chunkTitle : option string }.

(** [interface Message]; optional fields are options. *)
Record Message : Type := mkMessage {
  msgRole : Role;
  msgParts : list Part;
  file : option File;
  memoryUpdated : option bool;
  attachmentName : option string;
  groundingChunks : option (list GroundingChunk)
}.

(** [interface ChatSession]. *)
Record ChatSession : Type := mkChat { id : string; title : string; messages : list Message }.

(** ** The Gateway *)

Inductive Tool : Type := GoogleSearch.
Inductive Modality : Type := IMAGE | TEXT.

(** [contents] is a turn list, or a bare prompt string (title generation). *)
Inductive Contents : Type :=
| Turns (turns : list Content)
| Prompt (prompt : string).

(** The argument of [ai.models.generateContent]; absent config fields are
    [None]. *)
Record Request : Type := mkRequest {
  reqModel : string;
  contents : Contents;
  systemInstruction : option string;
  tools : option (list Tool);
  responseModalities : option (list Modality)
}.

(** What the handler reads of a response: [response.text],
    [response.candidates?.[0]?.content?.parts] and
    [response.candidates?.[0]?.groundingMetadata?.groundingChunks]. *)
Record Response : Type := mkResponse {
  text : option string;
  contentParts : option (list Part);
  groundingMetadataChunks : option (list GroundingChunk)
}.

(** A thrown value: an [Error] with its message, or anything else. *)
Inductive Thrown : Type :=
| JsError (message : string)
| NonError.

(** The call slots of one turn. *)
Inductive CallId : Type :=
| TitleCall
| BypassCall
| MemoryCall
| InitialCall (agent : nat)
| RefinementCall (agent : nat)
| SynthesizerCall.

Record Reply : Type := mkReply { latency : nat; result : Response + Thrown }.

(** The world outside the handler during one turn. *)
Record Env : Type := mkEnv {
  envApiKey : option string;              (* process.env.API_KEY *)
  readFile : File -> option string;       (* FileReader: base64 payload, or an error *)
  gateway : CallId -> Reply
}.

(** A Gateway call that was issued, with the time of issue. *)
Record Issued : Type := mkIssued { issuedAt : nat; slot : CallId; request : Request }.

(** ** Promises in logical time *)

Inductive Settled (A : Type) : Type :=
| Fulfilled (at_time : nat) (value : A)
| Rejected (at_time : nat) (reason : Thrown).

Arguments Rejected {A} at_time reason.

Definition settleTime {A : Type} (p : Settled A) : nat :=
  match p with
  | Fulfilled t _ => t
  | Rejected t _ => t
  end.

(** The earliest rejection among the promises; of two that reject at the
    same instant, the one listed first. *)
Fixpoint firstRejection {A : Type} (ps : list (Settled A)) : option (nat * Thrown) :=
  match ps with
  | [] => None
  | Fulfilled _ _ :: rest => firstRejection rest
  | Rejected t e :: rest =>
    match firstRejection rest with
    | Some (t', e') => if (t <=? t')%nat then Some (t, e) else Some (t', e')
    | None => Some (t, e)
    end
  end.

Fixpoint fulfilledValues {A : Type} (ps : list (Settled A)) : list A :=
  match ps with
  | [] => []
  | Fulfilled _ v :: rest => v :: fulfilledValues rest
  | Rejected _ _ :: rest => fulfilledValues rest
  end.

Definition lastSettle {A : Type} (now : nat) (ps : list (Settled A)) : nat :=
  fold_right (fun p acc => Nat.max (settleTime p) acc) now ps.

(** [Promise.all(ps)], awaited from time [now]: it rejects as soon as one
    input rejects, without waiting for the others; otherwise it fulfils once
    all have, with the values in input order. *)
Definition promiseAll {A : Type} (now : nat) (ps : list (Settled A)) : Settled (list A) :=
  match firstRejection ps with
  | Some (t, e) => Rejected t e
  | None => Fulfilled (lastSettle now ps) (fulfilledValues ps)
  end.

(** [Promise.all([p, q])] for two promises of different types. *)
Definition promiseAll2 {A B : Type} (p : Settled A) (q : Settled B) : Settled (A * B) :=
  match p, q with
  | Fulfilled tp vp, Fulfilled tq vq => Fulfilled (Nat.max tp tq) (vp, vq)
  | Rejected tp e, Fulfilled _ _ => Rejected tp e
  | Fulfilled _ _, Rejected tq e => Rejected tq e
  | Rejected tp ep, Rejected tq eq => if (tp <=? tq)%nat then Rejected tp ep else Rejected tq eq
  end.

(** [ai.models.generateContent(...)] issued at [now] on call slot [slot]. *)
Definition generateContent (env : Env) (now : nat) (slot : CallId) : Settled Response :=
  let r := gateway env slot in
  match result r with
  | inl response => Fulfilled (now + latency r) response
  | inr e => Rejected (now + latency r) e
  end.

(** ** Application state *)

Record AppState : Type := mkState { chats : list ChatSession; memory : list string }.

(** What [handleSubmit] closes over: the state of the render it was created
    in, and the form. *)
Record Closure : Type := mkClosure {
  state : AppState;
  activeChatId : option string;
  model : string;
  apiKey : string;
  isGroundingEnabled : bool;
  attachment : option File;
  userInput : string
}.

(** The state updates the handler performs on messages and memory. *)
Inductive Update : Type :=
| AppendMessage (chatId : string) (m : Message)   (* setChats(prev => prev.map(...[...c.messages, m]...)) *)
| AppendMemory (fact : string).                   (* setMemory(prev => [...prev, fact]) *)

Definition appendTo (chatId : string) (m : Message) (c : ChatSession) : ChatSession :=
  if (id c =? chatId) then mkChat (id c) (title c) (messages c ++ [m])%list else c.

Definition applyUpdate (s : AppState) (u : Update) : AppState :=
  match u with
  | AppendMessage chatId m => mkState (map (appendTo chatId m) (chats s)) (memory s)
  | AppendMemory fact => mkState (chats s) (memory s ++ [fact])%list
  end.

(** One run of the handler: the calls it issued, its state updates with the
    time of each (in the order performed), and when each of the two
    concurrent tasks settled ([None]: the task was never started). *)
Record Outcome : Type := mkOutcome {
  calls : list Issued;
  updates : list (nat * Update);
  memorySettled : option nat;
  pipelineSettled : option nat
}.

Definition finalState (s : AppState) (o : Outcome) : AppState :=
  fold_left applyUpdate (map snd (updates o)) s.

(** ** Constants of the source *)

Definition INITIAL_SYSTEM_INSTRUCTION : string :=
  "You are an expert-level AI assistant. Your task is to provide a comprehensive, accurate, and well-reasoned initial response to the user's query. Aim for clarity and depth. Note: Your response is an intermediate step for other AI agents and will not be shown to the user. Be concise and focus on core information without unnecessary verbosity.".
Definition REFINEMENT_SYSTEM_INSTRUCTION : string :=
  "You are a reflective AI agent. Your primary task is to find flaws. Critically analyze your previous response and the responses from other AI agents. Focus specifically on identifying factual inaccuracies, logical fallacies, omissions, or any other weaknesses. Your goal is to generate a new, revised response that corrects these specific errors and is free from the flaws you have identified. Note: This refined response is for a final synthesizer agent, not the user, so be direct and prioritize accuracy over conversational style.".
Definition SYNTHESIZER_SYSTEM_INSTRUCTION : string :=
  "You are a master synthesizer AI. Your PRIMARY GOAL is to write the final, complete response to the user's query. You will be given the user's query and four refined responses from other AI agents. Your task is to analyze these responses—identifying their strengths to incorporate and their flaws to discard. Use this analysis to construct the single best possible answer for the user. Do not just critique the other agents; your output should BE the final, polished response.".
Definition MEMORY_AGENT_SYSTEM_INSTRUCTION : string :=
  "You are a memory management AI. Your task is to analyze the user's latest message in the context of the conversation. Identify and extract ONLY crucial, long-term facts about the user (e.g., name, preferences, goals, key life details). Do NOT extract trivial information. If important new information is found, output it as a concise statement. If the user explicitly asks you to remember something, save it. If no new important information is found or the user's message is trivial, output the exact string 'NO_UPDATE'.".

Definition IMAGE_MODEL : string := "gemini-2.5-flash-image-preview".
Definition HELPER_MODEL : string := "gemini-1.5-flash".
Definition FALLBACK_TEXT : string := "Could not get a response.".
Definition QUOTA_TEXT : string :=
  "Anda telah melebihi kuota API Anda saat ini. Silakan periksa paket dan detail tagihan Anda, atau coba lagi nanti.".
Definition CREDENTIAL_TEXT : string :=
  "API key tidak valid. Silakan periksa kembali API key Anda di pengaturan.".
Definition GENERIC_PREFIX : string := "Terjadi kesalahan: ".
Definition DEFAULT_ERROR_TEXT : string := "Sorry, I encountered an error. Please try again.".
Definition FILE_ERROR_TEXT : string := "Sorry, failed to process the attached file.".
Definition NO_KEY_MESSAGE : string := "API key is not set. Please add it in Settings.".

(** ** The handler *)

Definition modelMessage (ps : list Part) : Message :=
  mkMessage Model ps None None None None.

(** [apiKey || process.env.API_KEY]. *)
Definition finalApiKey (c : Closure) (env : Env) : option string :=
  if isEmpty (apiKey c) then envApiKey env else Some (apiKey c).

Definition falsy (v : option string) : bool :=
  match v with
  | Some s => isEmpty s
  | None => true
  end.

(** [chats.find(c => c.id === activeChatId)?.messages ?? []]. *)
Definition activeMessages (c : Closure) (chatId : string) : list Message :=
  match find (fun ch => id ch =? chatId) (chats (state c)) with
  | Some ch => messages ch
  | None => []
  end.

(** [activeChat?.messages.length === 0]. *)
Definition isFirstMessage (c : Closure) (chatId : string) : bool :=
  match find (fun ch => id ch =? chatId) (chats (state c)) with
  | Some ch => match messages ch with [] => true | _ :: _ => false end
  | None => false
  end.

(** [fileToGenerativePart]: [None] when the reader rejects. *)
Definition fileToGenerativePart (env : Env) (f : File) : option Part :=
  match readFile env f with
  | Some base64Data => Some (InlineData (type f) base64Data)
  | None => None
  end.

(** [buildApiHistory]: a file of a user message is read at call time and
    put in front of the message's parts; a file that cannot be read is left
    out. *)
Definition buildApiHistory (env : Env) (msgs : list Message) : list Content :=
  map (fun msg =>
         match msgRole msg, file msg with
         | User, Some f =>
           match fileToGenerativePart env f with
           | Some filePart => mkContent (msgRole msg) (filePart :: msgParts msg)
           | None => mkContent (msgRole msg) (msgParts msg)
           end
         | _, _ => mkContent (msgRole msg) (msgParts msg)
         end) msgs.

(** [generateTitle]: only its Gateway call is modelled; the call changes
    the title of the chat, never its messages nor the memory. *)
Definition generateTitle (c : Closure) (env : Env) (titleText : string) : list Issued :=
  if falsy (finalApiKey c env) then []
  else
    [mkIssued 0 TitleCall
       (mkRequest HELPER_MODEL
          (Prompt ("Generate a very short, concise title (4 words max) for a conversation starting with this message: "
                   ++ dq ++ titleText ++ dq
                   ++ ". Do not include quotes or any preamble in your response."))
          None None None)].

(** The text shown by the [catch] block for a thrown value. *)
Definition errorMessageText (e : Thrown) : string :=
  match e with
  | JsError message =>
    if includes message "RESOURCE_EXHAUSTED" then QUOTA_TEXT
    else if includes message "API key not valid" then CREDENTIAL_TEXT
    else GENERIC_PREFIX ++ message
  | NonError => DEFAULT_ERROR_TEXT
  end.

Definition errorMessage (e : Thrown) : Message :=
  modelMessage [TextPart (Some (errorMessageText e))].

Definition memoryContext (mem : list string) : string :=
  match mem with
  | [] => EmptyString
  | _ :: _ =>
    "--- Start User Memory ---" ++ nl
    ++ "The user has provided the following information about themselves. Use this to personalize your response:" ++ nl
    ++ "- " ++ join (nl ++ "- ") mem ++ nl
    ++ "--- End User Memory ---" ++ nl ++ nl
  end.

(** The memory extraction task (lines 1217-1225).  [userInput] is the
    value the closure captured: [setUserInput('')] on line 1147 does not
    change it.  The promise never rejects; its value here is the content of
    the variable [newMemory] once the task has settled. *)
Definition memoryPromise (c : Closure) (env : Env) (mainChatHistory : list Content)
  : list Issued * Settled (option string) :=
  if isEmpty (trim (userInput c)) then ([], Fulfilled 0 None)
  else
    let memoryHistory :=
      (mainChatHistory ++ [mkContent User [TextPart (Some (userInput c))]])%list in
    let req := mkRequest HELPER_MODEL (Turns memoryHistory)
                 (Some MEMORY_AGENT_SYSTEM_INSTRUCTION) None None in
    let settlement := generateContent env 0 MemoryCall in
    let newMemory :=
      match settlement with
      | Fulfilled _ response =>
        match text response with
        | Some t =>
          let memoryText := trim t in
          if negb (isEmpty memoryText) && negb (memoryText =? "NO_UPDATE")
          then Some memoryText else None
        | None => None   (* response.text.trim() throws, caught *)
        end
      | Rejected _ _ => None   (* caught and logged *)
      end in
    ([mkIssued 0 MemoryCall req], Fulfilled (settleTime settlement) newMemory).

(** [agentConfig.tools]. *)
Definition agentTools (c : Closure) : option (list Tool) :=
  if isGroundingEnabled c then Some [GoogleSearch] else None.

Definition attachmentLabel (c : Closure) : string :=
  match attachment c with
  | Some f => if isEmpty (name f) then "file" else name f
  | None => "file"
  end.

Definition textForContext (c : Closure) (userPartsForApi : list Part) : string :=
  join nl (map (fun p =>
                  match p with
                  | TextPart t => joinItem t
                  | InlineData _ _ => "[Attachment: " ++ attachmentLabel c ++ "]"
                  end) userPartsForApi).

Definition refinementContext (initialAnswers : list (option string))
           (initialAnswer : option string) (index : nat) : string :=
  let otherAnswers := filterIndexNe 0 index initialAnswers in
  "My initial response was: " ++ dq ++ interpolate initialAnswer ++ dq
  ++ ". The other agents responded with: 1. " ++ dq ++ at_ otherAnswers 0 ++ dq
  ++ " 2. " ++ dq ++ at_ otherAnswers 1 ++ dq
  ++ " 3. " ++ dq ++ at_ otherAnswers 2 ++ dq
  ++ ". Based on this context, critically re-evaluate and provide a new, improved response to the original query.".

Definition internalTurn (context internal : string) : Content :=
  mkContent User [TextPart (Some (context ++ nl ++ nl ++ "---INTERNAL CONTEXT---" ++ nl ++ internal))].

Definition synthesizerContext (refinedAnswers : list (option string)) : string :=
  "Here are the four refined responses to the user's query. Your task is to synthesize them into the best single, final answer."
  ++ nl ++ nl ++ "Refined Response 1:" ++ nl ++ dq ++ at_ refinedAnswers 0 ++ dq
  ++ nl ++ nl ++ "Refined Response 2:" ++ nl ++ dq ++ at_ refinedAnswers 1 ++ dq
  ++ nl ++ nl ++ "Refined Response 3:" ++ nl ++ dq ++ at_ refinedAnswers 2 ++ dq
  ++ nl ++ nl ++ "Refined Response 4:" ++ nl ++ dq ++ at_ refinedAnswers 3 ++ dq.

Definition PACING_DELAY : nat := 1000.

Definition initialRequest (c : Closure) (conversationForAgents : list Content) : Request :=
  mkRequest (model c) (Turns conversationForAgents)
    (Some (memoryContext (memory (state c)) ++ INITIAL_SYSTEM_INSTRUCTION))
    (agentTools c) None.

Definition refinementRequest (c : Closure) (mainChatHistory : list Content)
           (context : string) (initialAnswers : list (option string))
           (initialAnswer : option string) (index : nat) : Request :=
  let refinementTurn := internalTurn context (refinementContext initialAnswers initialAnswer index) in
  mkRequest (model c) (Turns (mainChatHistory ++ [refinementTurn])%list)
    (Some (memoryContext (memory (state c)) ++ REFINEMENT_SYSTEM_INSTRUCTION))
    (agentTools c) None.

Definition synthesizerRequest (c : Closure) (mainChatHistory : list Content)
           (context : string) (refinedAnswers : list (option string)) : Request :=
  let synthesizerTurn := internalTurn context (synthesizerContext refinedAnswers) in
  mkRequest (model c) (Turns (mainChatHistory ++ [synthesizerTurn])%list)
    (Some (memoryContext (memory (state c)) ++ SYNTHESIZER_SYSTEM_INSTRUCTION))
    (agentTools c) None.

(** Stage 1: the four calls and their promises. *)
Definition initialCalls (c : Closure) (conversationForAgents : list Content) : list Issued :=
  map (fun i => mkIssued 0 (InitialCall i) (initialRequest c conversationForAgents)) (seq 0 4).

Definition initialAgentPromises (env : Env) : list (Settled Response) :=
  map (fun i => generateContent env 0 (InitialCall i)) (seq 0 4).

(** Stage 2: one call per initial answer, issued at [now]. *)
Definition refinementCalls (c : Closure) (mainChatHistory : list Content) (context : string)
           (now : nat) (initialAnswers : list (option string)) : list Issued :=
  mapi (fun initialAnswer index =>
          mkIssued now (RefinementCall index)
            (refinementRequest c mainChatHistory context initialAnswers initialAnswer index))
       0 initialAnswers.

Definition refinementAgentPromises (env : Env) (now : nat)
           (initialAnswers : list (option string)) : list (Settled Response) :=
  mapi (fun _ index => generateContent env now (RefinementCall index)) 0 initialAnswers.

(** The multi-agent pipeline (lines 1227-1262): the calls issued and the
    settlement of the promise. *)
Definition multiAgentPromise (c : Closure) (env : Env)
           (mainChatHistory : list Content) (userPartsForApi : list Part)
  : list Issued * Settled Response :=
  let currentUserTurn := mkContent User userPartsForApi in
  let conversationForAgents := (mainChatHistory ++ [currentUserTurn])%list in
  match promiseAll 0 (initialAgentPromises env) with
  | Rejected t e => (initialCalls c conversationForAgents, Rejected t e)
  | Fulfilled t1 initialResponses =>
    let initialAnswers := map text initialResponses in
    let context := textForContext c userPartsForApi in
    let start2 := t1 + PACING_DELAY in
    match promiseAll start2 (refinementAgentPromises env start2 initialAnswers) with
    | Rejected t e =>
      ((initialCalls c conversationForAgents
          ++ refinementCalls c mainChatHistory context start2 initialAnswers)%list,
       Rejected t e)
    | Fulfilled t2 refinedResponses =>
      let refinedAnswers := map text refinedResponses in
      let start3 := t2 + PACING_DELAY in
      ((initialCalls c conversationForAgents
          ++ refinementCalls c mainChatHistory context start2 initialAnswers
          ++ [mkIssued start3 SynthesizerCall
                (synthesizerRequest c mainChatHistory context refinedAnswers)])%list,
       generateContent env start3 SynthesizerCall)
    end
  end.

(** [!!newMemory]. *)
Definition truthy (v : option string) : bool := negb (falsy v).

(** Lines 1266-1268: the update of the memory set proposed by the task. *)
Definition memoryUpdate (mem : list string) (newMemory : option string) : list Update :=
  match newMemory with
  | Some fact =>
    if negb (isEmpty fact) && negb (arrayIncludes mem fact) then [AppendMemory fact] else []
  | None => []
  end.

Definition stamp (t : nat) (us : list Update) : list (nat * Update) :=
  map (fun u => (t, u)) us.

(** The main branch (lines 1204-1272) and its [catch]. *)
Definition mainPipeline (c : Closure) (env : Env) (chatId : string)
           (userPartsForApi : list Part) : Outcome :=
  let mainChatHistory := buildApiHistory env (activeMessages c chatId) in
  let (memoryCalls, memorySettlement) := memoryPromise c env mainChatHistory in
  let (agentCalls, agentSettlement) := multiAgentPromise c env mainChatHistory userPartsForApi in
  let us :=
    match promiseAll2 memorySettlement agentSettlement with
    | Fulfilled t (newMemory, finalResult) =>
      stamp t (memoryUpdate (memory (state c)) newMemory
               ++ [AppendMessage chatId
                     (mkMessage Model [TextPart (text finalResult)] None
                        (Some (truthy newMemory)) None
                        (groundingMetadataChunks finalResult))])%list
    | Rejected t e => [(t, AppendMessage chatId (errorMessage e))]
    end in
  mkOutcome (memoryCalls ++ agentCalls)%list us
    (Some (settleTime memorySettlement)) (Some (settleTime agentSettlement)).

(** The image-model branch (lines 1186-1202) and its [catch]. *)
Definition bypass (c : Closure) (env : Env) (chatId : string)
           (userPartsForApi : list Part) : Outcome :=
  let conversationHistory := buildApiHistory env (activeMessages c chatId) in
  let currentUserTurn := mkContent User userPartsForApi in
  let req := mkRequest (model c) (Turns (conversationHistory ++ [currentUserTurn])%list)
               None None (Some [IMAGE; TEXT]) in
  let u :=
    match generateContent env 0 BypassCall with
    | Fulfilled t response =>
      let ps := match contentParts response with
                | Some ps => ps
                | None => [TextPart (Some FALLBACK_TEXT)]
                end in
      (t, AppendMessage chatId (modelMessage ps))
    | Rejected t e => (t, AppendMessage chatId (errorMessage e))
    end in
  mkOutcome [mkIssued 0 BypassCall req] [u] None None.

Definition noOutcome : Outcome := mkOutcome [] [] None None.

Definition prepend (cs : list Issued) (us : list (nat * Update)) (o : Outcome) : Outcome :=
  mkOutcome (cs ++ calls o)%list (us ++ updates o)%list (memorySettled o) (pipelineSettled o).

(** Line 1139: the message stored for the user's turn. *)
Definition userMessage (c : Closure) : Message :=
  let trimmedInput := trim (userInput c) in
  mkMessage User
    (if isEmpty trimmedInput then [] else [TextPart (Some trimmedInput)])
    (attachment c) None (option_map name (attachment c)) None.

(** Lines 1157-1160: the title call of a chat's first message. *)
Definition titleCalls (c : Closure) (env : Env) (chatId : string) : list Issued :=
  let trimmedInput := trim (userInput c) in
  if isFirstMessage c chatId
  then generateTitle c env
         (if isEmpty trimmedInput
          then "Chat with " ++ (match attachment c with
                                | Some f => if isEmpty (name f) then "attachment" else name f
                                | None => "attachment"
                                end)
          else trimmedInput)
  else [].

(** Lines 1171-1181: the attachment converted for this call; [None] when
    the conversion fails. *)
Definition fileParts (c : Closure) (env : Env) : option (list Part) :=
  match attachment c with
  | Some f => option_map (fun filePart => [filePart]) (fileToGenerativePart env f)
  | None => Some []
  end.

(** Lines 1170-1184: [userPartsForApi]. *)
Definition userPartsForApi (c : Closure) (fps : list Part) : list Part :=
  let trimmedInput := trim (userInput c) in
  (fps ++ (if isEmpty trimmedInput then [] else [TextPart (Some trimmedInput)]))%list.

(** [handleSubmit] (lines 1129-1293).  The two early returns ([!activeChatId],
    which an empty id satisfies too, and nothing to send) come first; the
    user's message is stored and the title requested before the [try]. *)
Definition handleSubmit (c : Closure) (env : Env) : Outcome :=
  match activeChatId c with
  | None => noOutcome
  | Some chatId =>
    let trimmedInput := trim (userInput c) in
    if isEmpty chatId
       || (isEmpty trimmedInput && match attachment c with None => true | Some _ => false end)
    then noOutcome
    else
      prepend (titleCalls c env chatId) [(0, AppendMessage chatId (userMessage c))]
        (if falsy (finalApiKey c env)
         then mkOutcome [] [(0, AppendMessage chatId (errorMessage (JsError NO_KEY_MESSAGE)))] None None
         else
           match fileParts c env with
           | None =>
             mkOutcome [] [(0, AppendMessage chatId (modelMessage [TextPart (Some FILE_ERROR_TEXT)]))]
               None None
           | Some fps =>
             if model c =? IMAGE_MODEL
             then bypass c env chatId (userPartsForApi c fps)
             else mainPipeline c env chatId (userPartsForApi c fps)
           end)
  end.

(** Lines 794-798: the effect run when the model changes. *)
Definition groundingAfterModelChange (newModel : string) (isGroundingEnabled : bool) : bool :=
  if newModel =? IMAGE_MODEL then false else isGroundingEnabled.

(** ** Vocabulary of the properties *)

Definition slotEqb (a b : CallId) : bool :=
  match a, b with
  | TitleCall, TitleCall => true
  | BypassCall, BypassCall => true
  | MemoryCall, MemoryCall => true
  | InitialCall i, InitialCall j => (i =? j)%nat
  | RefinementCall i, RefinementCall j => (i =? j)%nat
  | SynthesizerCall, SynthesizerCall => true
  | _, _ => false
  end.

(** The calls of a run on one slot. *)
Definition callsOn (s : CallId) (o : Outcome) : list Issued :=
  filter (fun x => slotEqb (slot x) s) (calls o).

Definition isInitial (s : CallId) : bool :=
  match s with InitialCall _ => true | _ => false end.

(** The slots of stages 1, 2 and 3. *)
Definition isStage (s : CallId) : bool :=
  match s with
  | InitialCall _ | RefinementCall _ | SynthesizerCall => true
  | _ => false
  end.

Definition isStage12 (s : CallId) : bool :=
  match s with
  | InitialCall _ | RefinementCall _ => true
  | _ => false
  end.

(** The call on slot [s] rejects with [e]. *)
Definition fails (env : Env) (s : CallId) (e : Thrown) : Prop :=
  result (gateway env s) = inr e.

(** The call on slot [s] fulfils with [r]. *)
Definition answers (env : Env) (s : CallId) (r : Response) : Prop :=
  result (gateway env s) = inl r.

(** A submitted turn (an active chat, and text or an attachment to send)
    that passes the key check and the attachment
    conversion (with converted parts [fps]) under a model other than the
    image model: the turn runs the main pipeline. *)
Record MainTurn (c : Closure) (env : Env) (chatId : string) (fps : list Part) : Prop := {
  main_chat : activeChatId c = Some chatId;
  main_submitted :
    isEmpty chatId
    || (isEmpty (trim (userInput c))
        && match attachment c with None => true | Some _ => false end) = false;
  main_key : falsy (finalApiKey c env) = false;
  main_file : fileParts c env = Some fps;
  main_model : (model c =? IMAGE_MODEL) = false
}.

(** The same under the image model: the turn takes the bypass. *)
Record BypassTurn (c : Closure) (env : Env) (chatId : string) (fps : list Part) : Prop := {
  bypass_chat : activeChatId c = Some chatId;
  bypass_submitted :
    isEmpty chatId
    || (isEmpty (trim (userInput c))
        && match attachment c with None => true | Some _ => false end) = false;
  bypass_key : falsy (finalApiKey c env) = false;
  bypass_file : fileParts c env = Some fps;
  bypass_model : model c = IMAGE_MODEL
}.

(** When stage 1 is complete, and when stage 2 is, counted from [now]. *)
Definition stage1Done (env : Env) : nat := lastSettle 0 (initialAgentPromises env).

Definition stage2Done (env : Env) (now : nat) (initialAnswers : list (option string)) : nat :=
  lastSettle now (refinementAgentPromises env now initialAnswers).

(** The three ways a run of the pipeline can go. *)
Inductive PipelineRun (c : Closure) (env : Env) (hist : list Content) (ups : list Part)
  : list Issued * Settled Response -> Prop :=
| Stage1Rejected : forall i e,
    i < 4 ->
    fails env (InitialCall i) e ->
    PipelineRun c env hist ups
      (initialCalls c (hist ++ [mkContent User ups]),
       Rejected (latency (gateway env (InitialCall i))) e)
| Stage2Rejected : forall r0 r1 r2 r3 i e,
    answers env (InitialCall 0) r0 -> answers env (InitialCall 1) r1 ->
    answers env (InitialCall 2) r2 -> answers env (InitialCall 3) r3 ->
    i < 4 ->
    fails env (RefinementCall i) e ->
    let initialAnswers := [text r0; text r1; text r2; text r3] in
    let start2 := stage1Done env + PACING_DELAY in
    PipelineRun c env hist ups
      ((initialCalls c (hist ++ [mkContent User ups])
          ++ refinementCalls c hist (textForContext c ups) start2 initialAnswers)%list,
       Rejected (start2 + latency (gateway env (RefinementCall i))) e)
| Stage3Reached : forall r0 r1 r2 r3 q0 q1 q2 q3,
    answers env (InitialCall 0) r0 -> answers env (InitialCall 1) r1 ->
    answers env (InitialCall 2) r2 -> answers env (InitialCall 3) r3 ->
    answers env (RefinementCall 0) q0 -> answers env (RefinementCall 1) q1 ->
    answers env (RefinementCall 2) q2 -> answers env (RefinementCall 3) q3 ->
    let initialAnswers := [text r0; text r1; text r2; text r3] in
    let start2 := stage1Done env + PACING_DELAY in
    let start3 := stage2Done env start2 initialAnswers + PACING_DELAY in
    PipelineRun c env hist ups
      ((initialCalls c (hist ++ [mkContent User ups])
          ++ refinementCalls c hist (textForContext c ups) start2 initialAnswers
          ++ [mkIssued start3 SynthesizerCall
                (synthesizerRequest c hist (textForContext c ups)
                   [text q0; text q1; text q2; text q3])])%list,
       generateContent env start3 SynthesizerCall).

(** [sub] occurs in [s]. *)
Definition contains (s sub : string) : Prop :=
  exists a b, s = a ++ sub ++ b.

(** The facts as lines of bullets. *)
Definition bulletLines (mem : list string) : string :=
  join nl (map (fun fact => "- " ++ fact) mem).

(** The environment with another reply on one slot. *)
Definition withReply (env : Env) (s : CallId) (r : Reply) : Env :=
  mkEnv (envApiKey env) (readFile env)
    (fun s' => if slotEqb s' s then r else gateway env s').

Definition noUpdateResponse : Response := mkResponse (Some "NO_UPDATE") None None.


Definition isAppendMemory (u : Update) : bool :=
  match u with AppendMemory _ => true | AppendMessage _ _ => false end.


(** The memory set after the proposal of one more fact. *)
Definition memoryAfter (mem : list string) (newMemory : option string) : list string :=
  memory (fold_left applyUpdate (memoryUpdate mem newMemory) (mkState [] mem)).

(** The memory context in the words of the specification: a labelled block
    of bullet facts between a start and an end marker. *)
Definition memoryBlock (mem : list string) : string :=
  "--- Start User Memory ---" ++ nl
  ++ "The user has provided the following information about themselves. Use this to personalize your response:" ++ nl
  ++ bulletLines mem ++ nl
  ++ "--- End User Memory ---" ++ nl ++ nl.

(** ** Sample turns *)

Definition reply (t : nat) (s : string) : Reply :=
  mkReply t (inl (mkResponse (Some s) None None)).

Definition failure (t : nat) (m : string) : Reply :=
  mkReply t (inr (JsError m)).

Definition sampleState : AppState :=
  mkState [mkChat "chat-1" "New Chat" []] ["Likes tea"; "Lives in Bandung"].

(** A first message on the main pipeline, grounding on, no attachment. *)
Definition sampleClosure : Closure :=
  mkClosure sampleState (Some "chat-1") "gemini-2.5-flash" "key" true None
    "Explain photosynthesis".

(** Every call fulfils. *)
Definition sampleEnv : Env :=
  mkEnv None (fun _ => None)
    (fun s =>
       match s with
       | TitleCall => reply 40 "Photosynthesis"
       | BypassCall => reply 50 "image"
       | MemoryCall => reply 30 "NO_UPDATE"
       | InitialCall 0 => reply 10 "a0"
       | InitialCall 1 => reply 12 "a1"
       | InitialCall 2 => reply 11 "a2"
       | InitialCall _ => reply 13 "a3"
       | RefinementCall 0 => reply 20 "b0"
       | RefinementCall 1 => reply 22 "b1"
       | RefinementCall 2 => reply 21 "b2"
       | RefinementCall _ => reply 23 "b3"
       | SynthesizerCall => reply 5 "final"
       end).

(** The stage-3 call of the sample turn. *)
Definition sampleSynthesizerCall : Issued :=
  mkIssued 2036 SynthesizerCall
    (synthesizerRequest sampleClosure [] "Explain photosynthesis"
       [Some "b0"; Some "b1"; Some "b2"; Some "b3"]).

(** The sample turn under the image model, the grounding flag still set. *)
Definition imageClosure : Closure :=
  mkClosure sampleState (Some "chat-1") IMAGE_MODEL "key" true None
    "Explain photosynthesis".

(** The sample turn when the stage-2 call of agent 2 runs into the quota. *)
Definition quotaEnv : Env :=
  withReply sampleEnv (RefinementCall 2) (failure 21 "429 RESOURCE_EXHAUSTED: quota exceeded").

Definition quotaFailedCall : Issued :=
  mkIssued 1013 (RefinementCall 2)
    (refinementRequest sampleClosure [] "Explain photosynthesis"
       [Some "a0"; Some "a1"; Some "a2"; Some "a3"] (Some "a2") 2).

(** An attachment with white space as text, on the main pipeline. *)
Definition sampleFile : File := mkFile 1 "leaf.png" "image/png".

Definition attachmentClosure : Closure :=
  mkClosure sampleState (Some "chat-1") "gemini-2.5-flash" "key" false (Some sampleFile)
    (String " "%char (String "009"%char (String "010"%char EmptyString))).

Definition attachmentEnv : Env :=
  mkEnv None (fun _ => Some "iVBORw0KGgo=") (gateway sampleEnv).

(** The image model answers with an empty list of parts. *)
Definition emptyPartsEnv : Env :=
  withReply sampleEnv BypassCall (mkReply 50 (inl (mkResponse None (Some []) None))).

(** The image model answers without content. *)
Definition missingPartsEnv : Env :=
  withReply sampleEnv BypassCall (mkReply 50 (inl (mkResponse None None None))).

(** The synthesizer answers without text. *)
Definition missingTextEnv : Env :=
  withReply sampleEnv SynthesizerCall (mkReply 5 (inl (mkResponse None None None))).


(** The memory call fails. *)
Definition memoryFailEnv : Env :=
  withReply sampleEnv MemoryCall (failure 30 "503 UNAVAILABLE").

(** The memory call proposes a fact that is already known. *)
Definition knownFactEnv : Env :=
  withReply sampleEnv MemoryCall (reply 30 " Likes tea ").


(** ** More of the application *)

(** [s.split(sep)] for a separator of one character: never an empty
    array. *)
Fixpoint splitOn (sep : ascii) (s : string) : list string :=
  match s with
  | EmptyString => [EmptyString]
  | String a r =>
    if Ascii.eqb a sep then EmptyString :: splitOn sep r
    else match splitOn sep r with
         | x :: xs => String a x :: xs
         | [] => [String a EmptyString]
         end
  end.

(** [s.replace(/c/g, '')] for one character [c]. *)
Fixpoint removeChar (c : ascii) (s : string) : string :=
  match s with
  | EmptyString => EmptyString
  | String a r => if Ascii.eqb a c then removeChar c r else String a (removeChar c r)
  end.

(** The character occurs in the string. *)
Fixpoint hasChar (c : ascii) (s : string) : bool :=
  match s with
  | EmptyString => false
  | String a r => Ascii.eqb a c || hasChar c r
  end.

(** The string begins with a white-space character. *)
Definition headWs (s : string) : bool :=
  match s with
  | EmptyString => false
  | String a r1 =>
    isWs1 a
    || match r1 with
       | EmptyString => false
       | String b r2 =>
         isWs2 a b
         || match r2 with
            | EmptyString => false
            | String x _ => isWs3 a b x
            end
       end
  end.

(** A memory fact as the settings dialog stores it: not empty, trimmed,
    on one line. *)
Definition cleanFact (fact : string) : Prop :=
  fact <> EmptyString /\ trim fact = fact /\ hasChar "010"%char fact = false.

(** *** The settings dialog ([MemoryModal]) *)

(** Lines 136 and 155: the text shown for the memory set. *)
Definition editedMemoryOf (mem : list string) : string := join nl mem.

(** [handleSave] (lines 173-176): the arguments it passes to [onSave]. *)
Definition handleSave (editedMemory editedApiKey : string) : list string * string :=
  (filter (fun m => negb (isEmpty m)) (map trim (splitOn "010"%char editedMemory)),
   editedApiKey).

(** *** Title generation: the update of [generateTitle] (lines 1072-1086) *)

(** [result.text.trim()] with every double quote removed; [None] when the
    call rejects or has no text (the error is caught and logged). *)
Definition generatedTitle (env : Env) : option string :=
  match result (gateway env TitleCall) with
  | inl response =>
    match text response with
    | Some t => Some (removeChar "034"%char (trim t))
    | None => None
    end
  | inr _ => None
  end.

(** [prev.map(c => c.id === chatId ? { ...c, title } : c)]. *)
Definition setTitle (chatId newTitle : string) (cs : list ChatSession) : list ChatSession :=
  map (fun ch => if id ch =? chatId then mkChat (id ch) newTitle (messages ch) else ch) cs.

(** The chats after [generateTitle] has run, from the chats [cs] it finds
    when its call settles. *)
Definition generateTitleChats (c : Closure) (env : Env) (chatId : string)
           (cs : list ChatSession) : list ChatSession :=
  if falsy (finalApiKey c env) then cs
  else match generatedTitle env with
       | Some t => setTitle chatId t cs
       | None => cs
       end.

(** *** The chat list: new chat, delete, rename, restore *)
Module App.

Record State : Type := mkState {
  chats : list ChatSession;
  activeChatId : option string;
  chatToDelete : option string;
  editingChatId : option string;
  tempTitle : string
}.

(** The state of the first render. *)
Definition initial : State := mkState [] None None None EmptyString.

(** [c.messages.length === 0]. *)
Definition isEmptyChat (ch : ChatSession) : bool :=
  match messages ch with [] => true | _ :: _ => false end.

(** [{ id: Date.now().toString(), title: 'New Chat', messages: [] }]; [now]
    is the time stamp as a string. *)
Definition newChat (now : string) : ChatSession := mkChat now "New Chat" [].

(** [v === x] for [v : string | null]. *)
Definition isId (v : option string) (x : string) : bool :=
  match v with Some y => y =? x | None => false end.

(** [handleNewChat] (lines 988-1007). *)
Definition handleNewChat (s : State) (now : string) : State :=
  match find isEmptyChat (chats s) with
  | Some existingEmptyChat =>
    if isId (activeChatId s) (id existingEmptyChat) then s
    else mkState (chats s) (Some (id existingEmptyChat))
           (chatToDelete s) (editingChatId s) (tempTitle s)
  | None =>
    mkState (newChat now :: chats s) (Some now)
      (chatToDelete s) (editingChatId s) (tempTitle s)
  end.

(** [handleSelectChat] (line 1009). *)
Definition handleSelectChat (s : State) (chatId : string) : State :=
  mkState (chats s) (Some chatId) (chatToDelete s) (editingChatId s) (tempTitle s).

(** [requestDeleteChat] (lines 1011-1014). *)
Definition requestDeleteChat (s : State) (chatId : string) : State :=
  mkState (chats s) (activeChatId s) (Some chatId) (editingChatId s) (tempTitle s).

(** [handleDeleteChat] (lines 1016-1036). *)
Definition handleDeleteChat (s : State) (now : string) : State :=
  match chatToDelete s with
  | None => s
  | Some doomed =>
    if isEmpty doomed then s
    else
      let remainingChats := filter (fun ch => negb (id ch =? doomed)) (chats s) in
      match remainingChats with
      | [] =>
        mkState [newChat now] (Some now) None (editingChatId s) (tempTitle s)
      | _ :: _ =>
        if isId (activeChatId s) doomed
        then mkState (newChat now :: remainingChats) (Some now) None
               (editingChatId s) (tempTitle s)
        else mkState remainingChats (activeChatId s) None (editingChatId s) (tempTitle s)
      end
  end.

(** [handleStartEditing] and [handleCancelEditing] (lines 1038-1046). *)
Definition handleStartEditing (s : State) (chatId currentTitle : string) : State :=
  mkState (chats s) (activeChatId s) (chatToDelete s) (Some chatId) currentTitle.

Definition handleCancelEditing (s : State) : State :=
  mkState (chats s) (activeChatId s) (chatToDelete s) None EmptyString.

(** [handleSaveTitle] (lines 1048-1054). *)
Definition handleSaveTitle (s : State) (chatId : string) : State :=
  let trimmedTitle := trim (tempTitle s) in
  handleCancelEditing
    (if isEmpty trimmedTitle then s
     else mkState (setTitle chatId trimmedTitle (chats s)) (activeChatId s)
            (chatToDelete s) (editingChatId s) (tempTitle s)).

(** [if (msg.file) delete msg.file]. *)
Definition stripFile (m : Message) : Message :=
  mkMessage (msgRole m) (msgParts m) None (memoryUpdated m) (attachmentName m)
    (groundingChunks m).

Definition stripFiles (ch : ChatSession) : ChatSession :=
  mkChat (id ch) (title ch) (map stripFile (messages ch)).

(** The chats of the start-up effect (lines 859, 879-900): [savedChats] is
    the stored history once parsed, [None] when nothing is stored.  The
    stored active id is read and not used. *)
Definition restoreChats (savedChats : option (list ChatSession)) (now : string) : State :=
  match savedChats with
  | Some stored =>
    let parsedChats := map stripFiles stored in
    match find isEmptyChat parsedChats with
    | Some existingEmptyChat =>
      mkState parsedChats (Some (id existingEmptyChat)) None None EmptyString
    | None =>
      mkState (newChat now :: parsedChats) (Some now) None None EmptyString
    end
  | None => handleNewChat initial now
  end.

(** The active id names a chat of the list that has no messages yet. *)
Definition onEmptyChat (s : State) : Prop :=
  exists ch, In ch (chats s) /\ activeChatId s = Some (id ch) /\ messages ch = [].

(** The active id names a chat of the list. *)
Definition activeListed (s : State) : Prop :=
  exists ch, In ch (chats s) /\ activeChatId s = Some (id ch).

End App.

(** *** Sample values *)

Definition sampleMessage : Message :=
  mkMessage User [TextPart (Some "hello")] (Some sampleFile) None (Some "leaf.png") None.

Definition sampleList : App.State :=
  App.mkState
    [mkChat "1700000000002" "Trip" [sampleMessage];
     mkChat "1700000000001" "Recipes" [modelMessage [TextPart (Some "hi")]]]
    (Some "1700000000002") (Some "1700000000002") (Some "1700000000001")
    "  Dinner ideas ".

(** A turn that is submitted: there is an active chat, and text or an
    attachment to send. *)
Record Submitted (c : Closure) (chatId : string) : Prop := {
  submitted_chat : activeChatId c = Some chatId;
  submitted_content :
    isEmpty chatId
    || (isEmpty (trim (userInput c))
        && match attachment c with None => true | Some _ => false end) = false
}.

(** A closure without any API key, and one with an attachment. *)
Definition noKeyClosure : Closure :=
  mkClosure sampleState (Some "chat-1") "gemini-2.5-flash" EmptyString true None
    "Explain photosynthesis".

Definition leafClosure : Closure :=
  mkClosure sampleState (Some "chat-1") "gemini-2.5-flash" "key" false (Some sampleFile)
    "What plant is this?".

(** The memory call proposes a new fact. *)
Definition newFactEnv : Env :=
  withReply sampleEnv MemoryCall (reply 30 " Studies biology ").

(** *** Drag and drop (lines 800-849) *)

From Stdlib Require Import ZArith.

Module Drag.

(** [dragCounter.current], [isDragging] and [attachment]. *)
Record State : Type := mkState {
  dragCounter : Z;
  isDragging : bool;
  attachment : option File
}.

(** [handleDragEnter]; [hasItems] is [e.dataTransfer?.items?.length > 0]. *)
Definition handleDragEnter (hasItems : bool) (s : State) : State :=
  mkState (dragCounter s + 1)%Z (if hasItems then true else isDragging s) (attachment s).

(** [handleDragLeave]. *)
Definition handleDragLeave (s : State) : State :=
  let n := (dragCounter s - 1)%Z in
  mkState n (if (n =? 0)%Z then false else isDragging s) (attachment s).

(** [handleDrop]; [files] is [e.dataTransfer?.files], empty when absent. *)
Definition handleDrop (isLoading : bool) (files : list File) (s : State) : State :=
  mkState 0%Z false
    (if isLoading then attachment s
     else match files with
          | f :: _ => Some f
          | [] => attachment s
          end).

(** A drag that enters nested elements, one event per flag, and then
    leaves them again. *)
Definition enters (flags : list bool) (s : State) : State :=
  fold_left (fun st hasItems => handleDragEnter hasItems st) flags s.

Definition leaves (n : nat) (s : State) : State := Nat.iter n handleDragLeave s.

End Drag.

(** The first agent rejects with an Error whose message falls in both
    categories, and with a value that is not an Error. *)
Definition bothCategoriesEnv : Env :=
  withReply sampleEnv (InitialCall 0)
    (failure 7 "RESOURCE_EXHAUSTED after retry; last error: API key not valid").

Definition nonErrorEnv : Env :=
  withReply sampleEnv (InitialCall 0) (mkReply 7 (inr NonError)).

(** * Properties *)

(** ** Slots and promises *)

Lemma slotEqb_eq (a b : CallId) : slotEqb a b = true <-> a = b.
Proof.
  destruct a, b; simpl; split; intro H; try discriminate; try reflexivity.
  - apply Nat.eqb_eq in H. now subst.
  - injection H as ->. apply Nat.eqb_refl.
  - apply Nat.eqb_eq in H. now subst.
  - injection H as ->. apply Nat.eqb_refl.
Qed.

Lemma slotEqb_refl (a : CallId) : slotEqb a a = true.
Proof. now apply slotEqb_eq. Qed.

Lemma filter_none {A : Type} (f : A -> bool) (l : list A) :
  (forall x, In x l -> f x = false) -> filter f l = [].
Proof.
  induction l as [|x l IH]; intros H; simpl; [reflexivity|].
  rewrite (H x (or_introl eq_refl)). apply IH. intros y Hy. apply H. now right.
Qed.

Lemma firstRejection_In {A : Type} (ps : list (Settled A)) t e :
  firstRejection ps = Some (t, e) -> In (Rejected t e) ps.
Proof.
  induction ps as [|[t0 v|t0 e0] ps IH]; simpl; intros H.
  - discriminate.
  - right. now apply IH.
  - destruct (firstRejection ps) as [[t' e']|].
    + destruct (t0 <=? t')%nat; injection H as <- <-.
      * now left.
      * right. now apply IH.
    + injection H as <- <-. now left.
Qed.

Lemma firstRejection_None {A : Type} (ps : list (Settled A)) :
  firstRejection ps = None ->
  Forall2 (fun p v => exists t, p = Fulfilled t v) ps (fulfilledValues ps).
Proof.
  induction ps as [|[t0 v|t0 e0] ps IH]; simpl; intros H.
  - constructor.
  - constructor; [now exists t0 | now apply IH].
  - destruct (firstRejection ps) as [[t' e']|]; [destruct (t0 <=? t')%nat|]; discriminate.
Qed.

Lemma promiseAll_rejected {A : Type} now (ps : list (Settled A)) t e :
  promiseAll now ps = Rejected t e -> In (Rejected t e) ps.
Proof.
  unfold promiseAll. destruct (firstRejection ps) as [[t' e']|] eqn:F; intros H.
  - injection H as <- <-. now apply firstRejection_In.
  - discriminate.
Qed.

Lemma promiseAll_fulfilled {A : Type} now (ps : list (Settled A)) t vs :
  promiseAll now ps = Fulfilled t vs ->
  t = lastSettle now ps /\ Forall2 (fun p v => exists t', p = Fulfilled t' v) ps vs.
Proof.
  unfold promiseAll. destruct (firstRejection ps) as [[t' e']|] eqn:F; intros H.
  - discriminate.
  - injection H as <- <-. split; [reflexivity | now apply firstRejection_None].
Qed.

Lemma generateContent_fulfilled env now s t r :
  generateContent env now s = Fulfilled t r ->
  answers env s r /\ t = now + latency (gateway env s).
Proof.
  unfold generateContent, answers. destruct (result (gateway env s)); intros H.
  - injection H as <- <-. now split.
  - discriminate.
Qed.

Lemma generateContent_rejected env now s t e :
  generateContent env now s = Rejected t e ->
  fails env s e /\ t = now + latency (gateway env s).
Proof.
  unfold generateContent, fails. destruct (result (gateway env s)); intros H.
  - discriminate.
  - injection H as <- <-. now split.
Qed.

Lemma Forall2_four {A B : Type} (P : A -> B -> Prop) a0 a1 a2 a3 (vs : list B) :
  Forall2 P [a0; a1; a2; a3] vs ->
  exists v0 v1 v2 v3, vs = [v0; v1; v2; v3] /\ P a0 v0 /\ P a1 v1 /\ P a2 v2 /\ P a3 v3.
Proof.
  intros H.
  inversion H as [|? v0 ? l0 H0 T0]; subst.
  inversion T0 as [|? v1 ? l1 H1 T1]; subst.
  inversion T1 as [|? v2 ? l2 H2 T2]; subst.
  inversion T2 as [|? v3 ? l3 H3 T3]; subst.
  inversion T3; subst.
  now exists v0, v1, v2, v3.
Qed.

(** ** The pipeline runs in one of the three ways *)

Lemma multiAgent_run c env hist ups :
  PipelineRun c env hist ups (multiAgentPromise c env hist ups).
Proof.
  unfold multiAgentPromise.
  destruct (promiseAll 0 (initialAgentPromises env)) as [t1 rs|t e] eqn:E1.
  - apply promiseAll_fulfilled in E1 as [Ht1 HF].
    apply Forall2_four in HF as (r0 & r1 & r2 & r3 & -> & [s0 H0] & [s1 H1] & [s2 H2] & [s3 H3]).
    apply generateContent_fulfilled in H0 as [A0 _], H1 as [A1 _], H2 as [A2 _], H3 as [A3 _].
    cbn [map].
    destruct (promiseAll _ _) as [t2 qs|t e] eqn:E2.
    + apply promiseAll_fulfilled in E2 as [Ht2 HF2].
      apply Forall2_four in HF2 as (q0 & q1 & q2 & q3 & -> & [u0 Q0] & [u1 Q1] & [u2 Q2] & [u3 Q3]).
      apply generateContent_fulfilled in Q0 as [B0 _], Q1 as [B1 _], Q2 as [B2 _], Q3 as [B3 _].
      subst t1 t2. cbn [map].
      exact (Stage3Reached c hist ups A0 A1 A2 A3 B0 B1 B2 B3).
    + apply promiseAll_rejected in E2. subst t1.
      destruct E2 as [E|[E|[E|[E|[]]]]];
        apply generateContent_rejected in E as [F ->].
      * exact (Stage2Rejected c hist ups A0 A1 A2 A3 (i := 0) ltac:(lia) F).
      * exact (Stage2Rejected c hist ups A0 A1 A2 A3 (i := 1) ltac:(lia) F).
      * exact (Stage2Rejected c hist ups A0 A1 A2 A3 (i := 2) ltac:(lia) F).
      * exact (Stage2Rejected c hist ups A0 A1 A2 A3 (i := 3) ltac:(lia) F).
  - apply promiseAll_rejected in E1.
    destruct E1 as [E|[E|[E|[E|[]]]]];
      apply generateContent_rejected in E as [F ->]; cbn [Nat.add].
    + exact (Stage1Rejected c hist ups (i := 0) ltac:(lia) F).
    + exact (Stage1Rejected c hist ups (i := 1) ltac:(lia) F).
    + exact (Stage1Rejected c hist ups (i := 2) ltac:(lia) F).
    + exact (Stage1Rejected c hist ups (i := 3) ltac:(lia) F).
Qed.

(** ** The branch taken by the handler *)

Lemma handleSubmit_main c env chatId fps :
  MainTurn c env chatId fps ->
  handleSubmit c env =
  prepend (titleCalls c env chatId) [(0, AppendMessage chatId (userMessage c))]
    (mainPipeline c env chatId (userPartsForApi c fps)).
Proof.
  intros [Hc Hs Hk Hf Hm]. unfold handleSubmit.
  now rewrite Hc, Hs, Hk, Hf, Hm.
Qed.

Lemma handleSubmit_bypass c env chatId fps :
  BypassTurn c env chatId fps ->
  handleSubmit c env =
  prepend (titleCalls c env chatId) [(0, AppendMessage chatId (userMessage c))]
    (bypass c env chatId (userPartsForApi c fps)).
Proof.
  intros [Hc Hs Hk Hf Hm]. unfold handleSubmit.
  rewrite Hc, Hs, Hk, Hf, Hm. now rewrite String.eqb_refl.
Qed.

(** ** The calls of a main-pipeline turn *)

Lemma titleCalls_slot c env chatId x :
  In x (titleCalls c env chatId) -> slot x = TitleCall /\ tools (request x) = None.
Proof.
  unfold titleCalls, generateTitle.
  destruct (isFirstMessage c chatId); [|intros []].
  destruct (falsy (finalApiKey c env)); [intros []|].
  intros [<-|[]]. now split.
Qed.

Lemma memoryPromise_slot c env hist x :
  In x (fst (memoryPromise c env hist)) -> slot x = MemoryCall /\ tools (request x) = None.
Proof.
  unfold memoryPromise.
  destruct (isEmpty (trim (userInput c))); [intros []|].
  intros [<-|[]]. now split.
Qed.

Lemma mainPipeline_calls c env chatId ups :
  calls (mainPipeline c env chatId ups) =
  (fst (memoryPromise c env (buildApiHistory env (activeMessages c chatId)))
   ++ fst (multiAgentPromise c env (buildApiHistory env (activeMessages c chatId)) ups))%list.
Proof.
  unfold mainPipeline.
  destruct (memoryPromise _ _ _), (multiAgentPromise _ _ _ _). reflexivity.
Qed.

Lemma answers_fails env s r e : answers env s r -> fails env s e -> False.
Proof. unfold answers, fails. intros -> H. discriminate. Qed.

Lemma answers_inj env s r r' : answers env s r -> answers env s r' -> r = r'.
Proof. unfold answers. intros -> H. now injection H. Qed.

Lemma lt_four (P : nat -> Prop) i :
  i < 4 -> P 0 -> P 1 -> P 2 -> P 3 -> P i.
Proof.
  intros H P0 P1 P2 P3.
  destruct i as [|[|[|[|i]]]]; try assumption. lia.
Qed.

Lemma initialCalls_In c conv x :
  In x (initialCalls c conv) ->
  exists i, i < 4 /\ x = mkIssued 0 (InitialCall i) (initialRequest c conv).
Proof.
  unfold initialCalls. intros H. apply in_map_iff in H as (i & <- & Hi).
  apply in_seq in Hi. exists i. split; [lia | reflexivity].
Qed.

Lemma refinementCalls_In c hist ctx now a0 a1 a2 a3 x :
  In x (refinementCalls c hist ctx now [a0; a1; a2; a3]) ->
  exists i a, i < 4 /\
    x = mkIssued now (RefinementCall i) (refinementRequest c hist ctx [a0; a1; a2; a3] a i).
Proof.
  unfold refinementCalls. cbn [mapi].
  intros [<-|[<-|[<-|[<-|[]]]]];
    [exists 0, a0 | exists 1, a1 | exists 2, a2 | exists 3, a3]; (split; [lia | reflexivity]).
Qed.

(** The calls of the turn on a slot of the pipeline are those of the
    pipeline. *)
Lemma callsOn_main c env chatId fps s :
  MainTurn c env chatId fps ->
  isStage s = true ->
  callsOn s (handleSubmit c env) =
  filter (fun x => slotEqb (slot x) s)
    (fst (multiAgentPromise c env (buildApiHistory env (activeMessages c chatId))
            (userPartsForApi c fps))).
Proof.
  intros HM Hs. rewrite (handleSubmit_main HM).
  unfold callsOn, prepend. cbn [calls].
  rewrite mainPipeline_calls, !filter_app.
  rewrite (@filter_none _ _ (titleCalls c env chatId)).
  - rewrite (@filter_none _ _ (fst (memoryPromise _ _ _))); [reflexivity|].
    intros x Hx. apply memoryPromise_slot in Hx as [-> _]. now destruct s.
  - intros x Hx. apply titleCalls_slot in Hx as [-> _]. now destruct s.
Qed.

(** ** C1 *)

(** C1.  When stage 1 is complete with the answers a_0..a_3, the stage-2
    call of agent i (for i = 0..3) is issued once.  Its last turn is one
    user turn with one text part: the context text, the internal-context
    marker, and the sentence that quotes a_i as the agent's own answer and,
    numbered 1 to 3, three others, which are the answers at the indices
    other than i in index order: the k-th is a_k for k < i and a_(k+1) for
    k >= i.  An answer without text is quoted as the word undefined. *)
Theorem C1_refinement_prompt_names_other_three :
  forall c env chatId fps r0 r1 r2 r3 i,
    MainTurn c env chatId fps ->
    answers env (InitialCall 0) r0 -> answers env (InitialCall 1) r1 ->
    answers env (InitialCall 2) r2 -> answers env (InitialCall 3) r3 ->
    i < 4 ->
    let initialAnswers := [text r0; text r1; text r2; text r3] in
    let quoted := fun v : option string =>
                    match v with Some s => s | None => "undefined" end in
    let q := String "034"%char EmptyString in
    let n := String "010"%char EmptyString in
    exists others now,
      length others = 3 /\
      (forall k, k < 3 ->
         nth_error others k = nth_error initialAnswers (if (k <? i)%nat then k else S k)) /\
      callsOn (RefinementCall i) (handleSubmit c env) =
      [mkIssued now (RefinementCall i)
         (mkRequest (model c)
            (Turns (List.app (buildApiHistory env (activeMessages c chatId))
                      [mkContent User
                         [TextPart
                            (Some (textForContext c (userPartsForApi c fps)
                                   ++ n ++ n ++ "---INTERNAL CONTEXT---" ++ n
                                   ++ "My initial response was: " ++ q
                                   ++ quoted (nth i initialAnswers None) ++ q
                                   ++ ". The other agents responded with: 1. " ++ q
                                   ++ quoted (nth 0 others None) ++ q
                                   ++ " 2. " ++ q ++ quoted (nth 1 others None) ++ q
                                   ++ " 3. " ++ q ++ quoted (nth 2 others None) ++ q
                                   ++ ". Based on this context, critically re-evaluate and provide a new, improved response to the original query."))]]))
            (Some (memoryContext (memory (state c)) ++ REFINEMENT_SYSTEM_INSTRUCTION))
            (agentTools c) None)].
Proof.
  intros c env chatId fps r0 r1 r2 r3 i HM A0 A1 A2 A3 Hi initialAnswers quoted q n.
  exists (filterIndexNe 0 i initialAnswers), (stage1Done env + PACING_DELAY).
  rewrite (@callsOn_main c env chatId fps (RefinementCall i) HM eq_refl).
  remember (multiAgentPromise c env _ _) as run eqn:Erun.
  pose proof (multiAgent_run c env (buildApiHistory env (activeMessages c chatId))
                (userPartsForApi c fps)) as R.
  rewrite <- Erun in R. clear Erun.
  assert (Hinit : forall conv,
             filter (fun x => slotEqb (slot x) (RefinementCall i)) (initialCalls c conv) = []).
  { intros conv. apply filter_none. intros x Hx.
    apply initialCalls_In in Hx as (j & _ & ->). reflexivity. }
  destruct R as [j e Hj F
                |r0' r1' r2' r3' j e B0 B1 B2 B3 Hj F ia s2
                |r0' r1' r2' r3' q0 q1 q2 q3 B0 B1 B2 B3 Q0 Q1 Q2 Q3 ia s2 s3].
  - exfalso. revert F. pattern j. apply lt_four; [exact Hj|..]; intros F;
      eauto using answers_fails.
  - subst ia s2.
    rewrite (answers_inj B0 A0), (answers_inj B1 A1), (answers_inj B2 A2), (answers_inj B3 A3).
    cbn [fst]. rewrite filter_app, Hinit. cbn [app].
    fold initialAnswers.
    pattern i. apply lt_four; [exact Hi|..];
      (split; [reflexivity|]);
      (split; [intros [|[|[|k]]] Hk; try reflexivity; lia|]); reflexivity.
  - subst ia s2 s3.
    rewrite (answers_inj B0 A0), (answers_inj B1 A1), (answers_inj B2 A2), (answers_inj B3 A3).
    cbn [fst]. rewrite !filter_app, Hinit. cbn [app].
    fold initialAnswers.
    pattern i. apply lt_four; [exact Hi|..];
      (split; [reflexivity|]);
      (split; [intros [|[|[|k]]] Hk; try reflexivity; lia|]); reflexivity.
Qed.

Lemma C1_refinement_prompt_names_other_three_witness :
  let q := String "034"%char EmptyString in
  let n := String "010"%char EmptyString in
  map request (callsOn (RefinementCall 2) (handleSubmit sampleClosure sampleEnv)) =
  [mkRequest "gemini-2.5-flash"
     (Turns [mkContent User
               [TextPart
                  (Some ("Explain photosynthesis" ++ n ++ n ++ "---INTERNAL CONTEXT---" ++ n
                         ++ "My initial response was: " ++ q ++ "a2" ++ q
                         ++ ". The other agents responded with: 1. " ++ q ++ "a0" ++ q
                         ++ " 2. " ++ q ++ "a1" ++ q
                         ++ " 3. " ++ q ++ "a3" ++ q
                         ++ ". Based on this context, critically re-evaluate and provide a new, improved response to the original query."))]])
     (Some ("--- Start User Memory ---" ++ n
            ++ "The user has provided the following information about themselves. Use this to personalize your response:" ++ n
            ++ "- Likes tea" ++ n ++ "- Lives in Bandung" ++ n
            ++ "--- End User Memory ---" ++ n ++ n
            ++ REFINEMENT_SYSTEM_INSTRUCTION))
     (Some [GoogleSearch]) None].
Proof.
  intros q n.
  destruct (@C1_refinement_prompt_names_other_three sampleClosure sampleEnv "chat-1" []
              (mkResponse (Some "a0") None None) (mkResponse (Some "a1") None None)
              (mkResponse (Some "a2") None None) (mkResponse (Some "a3") None None) 2)
    as (others & now & L & Hk & E).
  - constructor; reflexivity.
  - reflexivity.
  - reflexivity.
  - reflexivity.
  - reflexivity.
  - lia.
  - destruct others as [|o0 [|o1 [|o2 [|o3 others]]]]; try discriminate L.
    pose proof (Hk 0 ltac:(lia)) as H0. pose proof (Hk 1 ltac:(lia)) as H1.
    pose proof (Hk 2 ltac:(lia)) as H2.
    cbn in H0, H1, H2. injection H0 as ->. injection H1 as ->. injection H2 as ->.
    rewrite E. reflexivity.
Defined.

(** ** C4 *)

Lemma append_assoc (a b c : string) : (a ++ b) ++ c = a ++ (b ++ c).
Proof. induction a as [|x a IH]; simpl; [reflexivity | now rewrite IH]. Qed.

Lemma join_bullets (mem : list string) :
  mem <> [] -> "- " ++ join (nl ++ "- ") mem = bulletLines mem.
Proof.
  unfold bulletLines, join.
  induction mem as [|f mem IH]; intros Hne; [contradiction|].
  destruct mem as [|g mem].
  - reflexivity.
  - change (String.concat (nl ++ "- ") (f :: g :: mem))
      with (f ++ (nl ++ "- ") ++ String.concat (nl ++ "- ") (g :: mem)).
    change (String.concat nl (map (fun fact => "- " ++ fact) (f :: g :: mem)))
      with (("- " ++ f) ++ nl ++ String.concat nl (map (fun fact => "- " ++ fact) (g :: mem))).
    rewrite <- IH by discriminate.
    now rewrite !append_assoc.
Qed.

(** The context built by the code is the block of the specification when
    there are facts, and empty when there are none. *)
Lemma memoryContext_block (mem : list string) :
  memoryContext mem = match mem with [] => EmptyString | _ :: _ => memoryBlock mem end.
Proof.
  destruct mem as [|f mem]; [reflexivity|].
  unfold memoryContext, memoryBlock.
  rewrite <- (@join_bullets (f :: mem)) by discriminate.
  now rewrite !append_assoc.
Qed.

Lemma filter_main c env chatId fps (p : CallId -> bool) :
  MainTurn c env chatId fps ->
  p TitleCall = false -> p MemoryCall = false ->
  filter (fun x => p (slot x)) (calls (handleSubmit c env)) =
  filter (fun x => p (slot x))
    (fst (multiAgentPromise c env (buildApiHistory env (activeMessages c chatId))
            (userPartsForApi c fps))).
Proof.
  intros HM Ht Hm. rewrite (handleSubmit_main HM).
  unfold prepend. cbn [calls].
  rewrite mainPipeline_calls, !filter_app.
  rewrite (@filter_none _ _ (titleCalls c env chatId)).
  - rewrite (@filter_none _ _ (fst (memoryPromise _ _ _))); [reflexivity|].
    intros x Hx. now apply memoryPromise_slot in Hx as [-> _].
  - intros x Hx. now apply titleCalls_slot in Hx as [-> _].
Qed.

Lemma filter_initial_initialCalls c conv :
  filter (fun x => isInitial (slot x)) (initialCalls c conv) = initialCalls c conv.
Proof. reflexivity. Qed.

Lemma filter_initial_refinementCalls c hist ctx now a0 a1 a2 a3 :
  filter (fun x => isInitial (slot x)) (refinementCalls c hist ctx now [a0; a1; a2; a3]) = [].
Proof. reflexivity. Qed.

(** C4.  On a main-pipeline turn, stage 1 issues exactly four calls, on the
    agents 0..3, all with the same request: the conversation for the agents
    as turn list and, as system instruction, the initial instruction,
    prefixed with the memory block (bullet facts between the start and end
    markers) when the memory set has facts and with nothing when it is
    empty. *)
Theorem C4_stage1_four_identical_calls :
  forall c env chatId fps,
    MainTurn c env chatId fps ->
    let conversationForAgents :=
      (buildApiHistory env (activeMessages c chatId)
       ++ [mkContent User (userPartsForApi c fps)])%list in
    let prefix :=
      match memory (state c) with
      | [] => EmptyString
      | _ :: _ => memoryBlock (memory (state c))
      end in
    filter (fun x => isInitial (slot x)) (calls (handleSubmit c env)) =
    map (fun i =>
           mkIssued 0 (InitialCall i)
             (mkRequest (model c) (Turns conversationForAgents)
                (Some (prefix ++ INITIAL_SYSTEM_INSTRUCTION)) (agentTools c) None))
        [0; 1; 2; 3]
    /\ (prefix = EmptyString <-> memory (state c) = []).
Proof.
  intros c env chatId fps HM conversationForAgents prefix.
  split.
  - rewrite (@filter_main c env chatId fps isInitial HM eq_refl eq_refl).
    assert (E : initialCalls c conversationForAgents =
                map (fun i =>
                       mkIssued 0 (InitialCall i)
                         (mkRequest (model c) (Turns conversationForAgents)
                            (Some (prefix ++ INITIAL_SYSTEM_INSTRUCTION)) (agentTools c) None))
                    [0; 1; 2; 3]).
    { unfold initialCalls, initialRequest, prefix.
      now rewrite memoryContext_block. }
    destruct (multiAgent_run c env (buildApiHistory env (activeMessages c chatId))
                (userPartsForApi c fps))
      as [j e Hj F
         |r0 r1 r2 r3 j e B0 B1 B2 B3 Hj F ia s2
         |r0 r1 r2 r3 q0 q1 q2 q3 B0 B1 B2 B3 Q0 Q1 Q2 Q3 ia s2 s3];
      cbn [fst]; rewrite ?filter_app, filter_initial_initialCalls.
    + exact E.
    + subst ia. rewrite filter_initial_refinementCalls, app_nil_r. exact E.
    + subst ia. rewrite filter_initial_refinementCalls. cbn [filter app slot isInitial].
      rewrite app_nil_r. exact E.
  - unfold prefix. destruct (memory (state c)); split; intros H;
      try reflexivity; discriminate.
Qed.

Lemma C4_stage1_four_identical_calls_witness :
  length (filter (fun x => isInitial (slot x)) (calls (handleSubmit sampleClosure sampleEnv))) = 4.
Proof.
  destruct (@C4_stage1_four_identical_calls sampleClosure sampleEnv "chat-1" []) as [E _].
  - constructor; reflexivity.
  - rewrite E. reflexivity.
Defined.

(** ** C5 *)

Lemma multiAgent_calls c env hist ups x :
  In x (fst (multiAgentPromise c env hist ups)) ->
  isStage (slot x) = true /\ tools (request x) = agentTools c.
Proof.
  destruct (multiAgent_run c env hist ups)
    as [j e Hj F
       |r0 r1 r2 r3 j e B0 B1 B2 B3 Hj F ia s2
       |r0 r1 r2 r3 q0 q1 q2 q3 B0 B1 B2 B3 Q0 Q1 Q2 Q3 ia s2 s3];
    cbn [fst]; intros H.
  - apply initialCalls_In in H as (i & _ & ->). now split.
  - apply in_app_or in H as [H|H].
    + apply initialCalls_In in H as (i & _ & ->). now split.
    + apply refinementCalls_In in H as (i & a & _ & ->). now split.
  - apply in_app_or in H as [H|H]; [|apply in_app_or in H as [H|H]].
    + apply initialCalls_In in H as (i & _ & ->). now split.
    + apply refinementCalls_In in H as (i & a & _ & ->). now split.
    + destruct H as [<-|[]]. now split.
Qed.

(** Every call of a turn is a helper call without tools, or a call of the
    pipeline, made under another model than the image model, with the tools
    of the agent configuration. *)
Lemma handleSubmit_calls c env x :
  In x (calls (handleSubmit c env)) ->
  (isStage (slot x) = false /\ tools (request x) = None)
  \/ (isStage (slot x) = true /\ tools (request x) = agentTools c
      /\ (model c =? IMAGE_MODEL) = false).
Proof.
  unfold handleSubmit.
  destruct (activeChatId c) as [chatId|]; [|intros []].
  destruct (_ || _); [intros []|].
  unfold prepend. cbn [calls]. intros H.
  apply in_app_or in H as [H|H].
  { apply titleCalls_slot in H as [E T]. left. now rewrite E. }
  destruct (falsy (finalApiKey c env)); [destruct H|].
  destruct (fileParts c env) as [fps|]; [|destruct H].
  destruct (model c =? IMAGE_MODEL) eqn:Em.
  - unfold bypass in H. cbn [calls] in H. destruct H as [<-|[]]. now left.
  - rewrite mainPipeline_calls in H. apply in_app_or in H as [H|H].
    + apply memoryPromise_slot in H as [E T]. left. now rewrite E.
    + apply multiAgent_calls in H as [S T]. right. now repeat split.
Qed.

(** C5.  With grounding enabled, every stage 1, 2 and 3 call of a turn
    asks for the search tool (such calls are made under a model other than
    the image model only); under the image model no call of the turn asks
    for any tool, whatever the grounding flag; and the effect run on a
    change of model clears the flag for the image model. *)
Theorem C5_grounding_tools :
  forall c env,
    (isGroundingEnabled c = true ->
     forall x, In x (calls (handleSubmit c env)) -> isStage (slot x) = true ->
               tools (request x) = Some [GoogleSearch] /\ model c <> IMAGE_MODEL)
    /\ (model c = IMAGE_MODEL ->
        forall x, In x (calls (handleSubmit c env)) -> tools (request x) = None)
    /\ (forall flag, groundingAfterModelChange IMAGE_MODEL flag = false).
Proof.
  intros c env. split; [|split].
  - intros G x Hx Hs.
    apply handleSubmit_calls in Hx as [[S _]|(_ & T & M)]; [congruence|].
    split.
    + rewrite T. unfold agentTools. now rewrite G.
    + now apply String.eqb_neq.
  - intros M x H. apply handleSubmit_calls in H as [[_ T]|(_ & _ & E)]; [exact T|].
    rewrite M, String.eqb_refl in E. discriminate.
  - reflexivity.
Qed.

Lemma C5_grounding_tools_witness :
  tools (request sampleSynthesizerCall) = Some [GoogleSearch]
  /\ Forall (fun x => tools (request x) = None) (calls (handleSubmit imageClosure sampleEnv)).
Proof.
  destruct (C5_grounding_tools sampleClosure sampleEnv) as (G & _ & _).
  destruct (C5_grounding_tools imageClosure sampleEnv) as (_ & I & _).
  split.
  - apply (G eq_refl sampleSynthesizerCall).
    + vm_compute. repeat (first [left; reflexivity | right]).
    + reflexivity.
  - apply Forall_forall. exact (I eq_refl).
Defined.

(** ** The substring test *)

Lemma prefix_iff (p s : string) : prefix p s = true <-> exists b, s = p ++ b.
Proof.
  revert s. induction p as [|x p IH]; intros s.
  - split; [intros _; now exists s | intros _; now destruct s].
  - destruct s as [|y s]; simpl.
    + split; [discriminate | intros [b H]; discriminate].
    + destruct (ascii_dec x y) as [->|N].
      * rewrite IH. split; intros [b H]; exists b; [now rewrite H | now injection H].
      * split; [discriminate | intros [b H]; injection H as E _; now elim N].
Qed.

Lemma includes_iff (s sub : string) : includes s sub = true <-> contains s sub.
Proof.
  unfold contains. induction s as [|x s IH]; cbn [includes].
  - rewrite prefix_iff. split.
    + intros [b H]. now exists EmptyString, b.
    + intros (a & b & H). destruct a; [now exists b | discriminate].
  - rewrite orb_true_iff, prefix_iff, IH. split.
    + intros [[b H]|(a & b & H)].
      * now exists EmptyString, b.
      * exists (String x a), b. simpl. now rewrite H.
    + intros (a & b & H). destruct a as [|y a].
      * left. now exists b.
      * right. exists a, b. now injection H.
Qed.

Lemma includes_false_iff (s sub : string) : includes s sub = false <-> ~ contains s sub.
Proof.
  rewrite <- includes_iff. destruct (includes s sub); split; intros H;
    try reflexivity; try discriminate; try (intros; discriminate).
  now elim H.
Qed.

(** The error text by category: the quota test comes first, then the
    credential test. *)
Lemma errorMessageText_category :
  (forall m, contains m "RESOURCE_EXHAUSTED" -> errorMessageText (JsError m) = QUOTA_TEXT)
  /\ (forall m, ~ contains m "RESOURCE_EXHAUSTED" -> contains m "API key not valid" ->
                errorMessageText (JsError m) = CREDENTIAL_TEXT)
  /\ (forall m, ~ contains m "RESOURCE_EXHAUSTED" -> ~ contains m "API key not valid" ->
                errorMessageText (JsError m) = GENERIC_PREFIX ++ m)
  /\ errorMessageText NonError = DEFAULT_ERROR_TEXT.
Proof.
  unfold errorMessageText. repeat split.
  - intros m H. apply includes_iff in H. now rewrite H.
  - intros m N H. apply includes_false_iff in N. apply includes_iff in H. now rewrite N, H.
  - intros m N1 N2. apply includes_false_iff in N1, N2. now rewrite N1, N2.
Qed.

(** ** The two tasks and the join *)

Lemma memoryPromise_settles c env hist :
  exists tm newMemory, snd (memoryPromise c env hist) = Fulfilled tm newMemory.
Proof.
  unfold memoryPromise. destruct (isEmpty (trim (userInput c))); cbn [snd]; eauto.
Qed.

Lemma mainPipeline_rejected c env chatId ups t e :
  snd (multiAgentPromise c env (buildApiHistory env (activeMessages c chatId)) ups)
  = Rejected t e ->
  updates (mainPipeline c env chatId ups) = [(t, AppendMessage chatId (errorMessage e))]
  /\ pipelineSettled (mainPipeline c env chatId ups) = Some t.
Proof.
  unfold mainPipeline. intros H.
  destruct (memoryPromise_settles c env (buildApiHistory env (activeMessages c chatId)))
    as (tm & nm & E).
  destruct (memoryPromise _ _ _) as [mc ms], (multiAgentPromise _ _ _ _) as [ac asl].
  cbn [snd] in *. subst. now split.
Qed.

Lemma mainPipeline_fulfilled c env chatId ups tm newMemory tp finalResult :
  snd (memoryPromise c env (buildApiHistory env (activeMessages c chatId)))
  = Fulfilled tm newMemory ->
  snd (multiAgentPromise c env (buildApiHistory env (activeMessages c chatId)) ups)
  = Fulfilled tp finalResult ->
  updates (mainPipeline c env chatId ups) =
  stamp (Nat.max tm tp)
    (memoryUpdate (memory (state c)) newMemory
     ++ [AppendMessage chatId
           (mkMessage Model [TextPart (text finalResult)] None
              (Some (truthy newMemory)) None (groundingMetadataChunks finalResult))])%list
  /\ memorySettled (mainPipeline c env chatId ups) = Some tm
  /\ pipelineSettled (mainPipeline c env chatId ups) = Some tp.
Proof.
  unfold mainPipeline. intros Hm Hp.
  destruct (memoryPromise _ _ _) as [mc ms], (multiAgentPromise _ _ _ _) as [ac asl].
  cbn [snd] in *. subst. now repeat split.
Qed.

Lemma main_calls_In c env chatId fps x :
  MainTurn c env chatId fps ->
  In x (fst (multiAgentPromise c env (buildApiHistory env (activeMessages c chatId))
               (userPartsForApi c fps))) ->
  In x (calls (handleSubmit c env)).
Proof.
  intros HM H. rewrite (handleSubmit_main HM). unfold prepend. cbn [calls].
  rewrite mainPipeline_calls. apply in_or_app. right. apply in_or_app. now right.
Qed.

Lemma main_stage_calls c env chatId fps x :
  MainTurn c env chatId fps ->
  In x (calls (handleSubmit c env)) -> isStage (slot x) = true ->
  In x (fst (multiAgentPromise c env (buildApiHistory env (activeMessages c chatId))
               (userPartsForApi c fps))).
Proof.
  intros HM H S. rewrite (handleSubmit_main HM) in H. unfold prepend in H. cbn [calls] in H.
  rewrite mainPipeline_calls in H.
  apply in_app_or in H as [H|H]; [|apply in_app_or in H as [H|H]].
  - apply titleCalls_slot in H as [E _]. rewrite E in S. discriminate.
  - apply memoryPromise_slot in H as [E _]. rewrite E in S. discriminate.
  - exact H.
Qed.

Lemma main_updates c env chatId fps :
  MainTurn c env chatId fps ->
  updates (handleSubmit c env) =
  (0, AppendMessage chatId (userMessage c))
    :: updates (mainPipeline c env chatId (userPartsForApi c fps)).
Proof. intros HM. now rewrite (handleSubmit_main HM). Qed.

(** ** C2 *)

(** The shape of a failed turn: the rejection that settles the pipeline is
    that of an issued stage call, its error message is the only update after
    the user's message, and a stage-1 or stage-2 failure leaves stage 3
    unissued. *)
Lemma stage_failure_shape c env chatId fps y e0 :
  MainTurn c env chatId fps ->
  In y (calls (handleSubmit c env)) -> isStage (slot y) = true ->
  fails env (slot y) e0 ->
  (exists x e,
      In x (calls (handleSubmit c env)) /\ isStage (slot x) = true /\ fails env (slot x) e
      /\ updates (handleSubmit c env) =
         [(0, AppendMessage chatId (userMessage c));
          (issuedAt x + latency (gateway env (slot x)),
           AppendMessage chatId (modelMessage [TextPart (Some (errorMessageText e))]))])
  /\ (isStage12 (slot y) = true -> callsOn SynthesizerCall (handleSubmit c env) = []).
Proof.
  intros HM Hy Sy Fy.
  split.
  - apply (@main_stage_calls c env chatId fps y HM) in Hy; [|exact Sy].
    rewrite (main_updates HM).
    pose proof (@main_calls_In c env chatId fps) as Hin. specialize (fun x => Hin x HM).
    pose proof (@mainPipeline_rejected c env chatId (userPartsForApi c fps)) as Hrej.
    remember (multiAgentPromise c env _ _) as run eqn:Erun.
    pose proof (multiAgent_run c env (buildApiHistory env (activeMessages c chatId))
                  (userPartsForApi c fps)) as R.
    rewrite <- Erun in R. clear Erun.
    destruct R as [j e Hj F
                  |r0 r1 r2 r3 j e B0 B1 B2 B3 Hj F ia s2
                  |r0 r1 r2 r3 q0 q1 q2 q3 B0 B1 B2 B3 Q0 Q1 Q2 Q3 ia s2 s3];
      cbn [fst snd] in *.
    + exists (mkIssued 0 (InitialCall j) (initialRequest c
                (buildApiHistory env (activeMessages c chatId)
                 ++ [mkContent User (userPartsForApi c fps)])%list)), e.
      destruct (Hrej _ _ eq_refl) as [-> _].
      repeat split; try assumption.
      apply Hin. unfold initialCalls. apply in_map_iff. exists j. split; [reflexivity|].
      apply in_seq. lia.
    + exists (mkIssued s2 (RefinementCall j)
                (refinementRequest c (buildApiHistory env (activeMessages c chatId))
                   (textForContext c (userPartsForApi c fps)) ia (nth j ia None) j)), e.
      destruct (Hrej _ _ eq_refl) as [-> _].
      repeat split; try assumption.
      apply Hin. apply in_or_app. right. subst ia. revert Hj. clear. intros Hj.
      pattern j. apply lt_four; [exact Hj|..]; cbn; tauto.
    + assert (Ey : y = mkIssued s3 SynthesizerCall
                     (synthesizerRequest c (buildApiHistory env (activeMessages c chatId))
                        (textForContext c (userPartsForApi c fps))
                        [text q0; text q1; text q2; text q3])).
      { apply in_app_or in Hy as [H|H]; [|apply in_app_or in H as [H|H]].
        - exfalso. apply initialCalls_In in H as (i & Hi & ->). cbn [slot] in Fy.
          revert Fy. pattern i. apply lt_four; [exact Hi|..]; intros Fy;
            eauto using answers_fails.
        - exfalso. subst ia. apply refinementCalls_In in H as (i & a & Hi & ->).
          cbn [slot] in Fy.
          revert Fy. pattern i. apply lt_four; [exact Hi|..]; intros Fy;
            eauto using answers_fails.
        - now destruct H as [<-|[]]. }
      subst y. cbn [slot] in Fy.
      exists (mkIssued s3 SynthesizerCall
                (synthesizerRequest c (buildApiHistory env (activeMessages c chatId))
                   (textForContext c (userPartsForApi c fps))
                   [text q0; text q1; text q2; text q3])), e0.
      assert (G : generateContent env s3 SynthesizerCall
                  = Rejected (s3 + latency (gateway env SynthesizerCall)) e0).
      { unfold generateContent. unfold fails in Fy. now rewrite Fy. }
      destruct (Hrej _ _ G) as [-> _].
      repeat split; try assumption.
      apply Hin. apply in_or_app. right. apply in_or_app. right. now left.
  - intros S12.
    rewrite (@callsOn_main c env chatId fps SynthesizerCall HM eq_refl).
    apply (@main_stage_calls c env chatId fps y HM) in Hy; [|exact Sy].
    remember (multiAgentPromise c env _ _) as run eqn:Erun.
    pose proof (multiAgent_run c env (buildApiHistory env (activeMessages c chatId))
                  (userPartsForApi c fps)) as R.
    rewrite <- Erun in R. clear Erun.
    destruct R as [j e Hj F
                  |r0 r1 r2 r3 j e B0 B1 B2 B3 Hj F ia s2
                  |r0 r1 r2 r3 q0 q1 q2 q3 B0 B1 B2 B3 Q0 Q1 Q2 Q3 ia s2 s3];
      cbn [fst snd] in *.
    + reflexivity.
    + subst ia. reflexivity.
    + exfalso. apply in_app_or in Hy as [H|H]; [|apply in_app_or in H as [H|H]].
      * apply initialCalls_In in H as (i & Hi & ->). cbn [slot] in Fy.
        revert Fy. pattern i. apply lt_four; [exact Hi|..]; intros Fy;
          eauto using answers_fails.
      * subst ia. apply refinementCalls_In in H as (i & a & Hi & ->).
        cbn [slot] in Fy.
        revert Fy. pattern i. apply lt_four; [exact Hi|..]; intros Fy;
          eauto using answers_fails.
      * destruct H as [<-|[]]. discriminate.
Qed.


(** The text of the error message, case by case. *)
Lemma errorMessageText_cases (e : Thrown) :
  match e with
  | JsError m =>
    (contains m "RESOURCE_EXHAUSTED"
     /\ errorMessageText e =
        "Anda telah melebihi kuota API Anda saat ini. Silakan periksa paket dan detail tagihan Anda, atau coba lagi nanti.")
    \/ (~ contains m "RESOURCE_EXHAUSTED" /\ contains m "API key not valid"
        /\ errorMessageText e =
           "API key tidak valid. Silakan periksa kembali API key Anda di pengaturan.")
    \/ (~ contains m "RESOURCE_EXHAUSTED" /\ ~ contains m "API key not valid"
        /\ errorMessageText e = "Terjadi kesalahan: " ++ m)
  | NonError => errorMessageText e = "Sorry, I encountered an error. Please try again."
  end.
Proof.
  destruct e as [m|]; [|reflexivity].
  cbn [errorMessageText].
  destruct (includes m "RESOURCE_EXHAUSTED") eqn:E1.
  - left. split; [now apply includes_iff | reflexivity].
  - apply includes_false_iff in E1.
    destruct (includes m "API key not valid") eqn:E2.
    + right. left. repeat split; [exact E1 | now apply includes_iff].
    + right. right. apply includes_false_iff in E2. now repeat split.
Qed.

(** The claim C2 at two sample turns.  The first agent rejects with an
    Error whose message contains both RESOURCE_EXHAUSTED and "API key not
    valid": the message appended carries the quota text, not the credential
    text.  The first agent rejects with a value that is not an Error: the
    message appended carries the fixed default text, without any detail. *)
Lemma C2_error_category_counterexample :
  (MainTurn sampleClosure bothCategoriesEnv "chat-1" []
   /\ fails bothCategoriesEnv (InitialCall 0)
        (JsError "RESOURCE_EXHAUSTED after retry; last error: API key not valid")
   /\ contains "RESOURCE_EXHAUSTED after retry; last error: API key not valid"
        "API key not valid"
   /\ updates (handleSubmit sampleClosure bothCategoriesEnv) =
      [(0, AppendMessage "chat-1"
             (mkMessage User [TextPart (Some "Explain photosynthesis")] None None None None));
       (7, AppendMessage "chat-1"
             (mkMessage Model
                [TextPart (Some "Anda telah melebihi kuota API Anda saat ini. Silakan periksa paket dan detail tagihan Anda, atau coba lagi nanti.")]
                None None None None))])
  /\ (fails nonErrorEnv (InitialCall 0) NonError
      /\ updates (handleSubmit sampleClosure nonErrorEnv) =
         [(0, AppendMessage "chat-1"
                (mkMessage User [TextPart (Some "Explain photosynthesis")] None None None None));
          (7, AppendMessage "chat-1"
                (mkMessage Model
                   [TextPart (Some "Sorry, I encountered an error. Please try again.")]
                   None None None None))]).
Proof.
  split; [split; [constructor; reflexivity|]|].
  - split; [reflexivity|]. split; [|reflexivity].
    exists "RESOURCE_EXHAUSTED after retry; last error: ", EmptyString. reflexivity.
  - split; reflexivity.
Qed.

(** C2 (amended).  On a main-pipeline turn in which an issued call of
    stage 1, 2 or 3 rejects, the turn's updates are the user's message and
    exactly one more message, of role model, with one text part and nothing
    else: no answer, no memory fact.  It is the error message for the
    rejection that settled the pipeline (a rejected call of the turn's
    stages), appended when that call rejects.  When the rejected call is of
    stage 1 or 2, no stage-3 call is issued.  The text depends on the thrown
    value only, tested in this order: for an Error whose message contains
    RESOURCE_EXHAUSTED the quota text; otherwise, when the message contains
    "API key not valid", the credential text; otherwise "Terjadi
    kesalahan: " followed by the message; for a thrown value that is not an
    Error the fixed default text. *)
Theorem C2_stage_failure_fails_turn_as_one :
  forall c env chatId fps y e0,
    MainTurn c env chatId fps ->
    In y (calls (handleSubmit c env)) -> isStage (slot y) = true ->
    fails env (slot y) e0 ->
    (exists x e txt,
        In x (calls (handleSubmit c env)) /\ isStage (slot x) = true /\ fails env (slot x) e
        /\ updates (handleSubmit c env) =
           [(0, AppendMessage chatId (userMessage c));
            (issuedAt x + latency (gateway env (slot x)),
             AppendMessage chatId
               (mkMessage Model [TextPart (Some txt)] None None None None))]
        /\ match e with
           | JsError m =>
             (contains m "RESOURCE_EXHAUSTED"
              /\ txt = "Anda telah melebihi kuota API Anda saat ini. Silakan periksa paket dan detail tagihan Anda, atau coba lagi nanti.")
             \/ (~ contains m "RESOURCE_EXHAUSTED" /\ contains m "API key not valid"
                 /\ txt = "API key tidak valid. Silakan periksa kembali API key Anda di pengaturan.")
             \/ (~ contains m "RESOURCE_EXHAUSTED" /\ ~ contains m "API key not valid"
                 /\ txt = "Terjadi kesalahan: " ++ m)
           | NonError => txt = "Sorry, I encountered an error. Please try again."
           end)
    /\ (isStage12 (slot y) = true -> callsOn SynthesizerCall (handleSubmit c env) = []).
Proof.
  intros c env chatId fps y e0 HM Hy Sy Fy.
  destruct (@stage_failure_shape c env chatId fps y e0 HM Hy Sy Fy) as ((x & e & Hx & Sx & Fx & Eu) & N).
  split; [|exact N].
  exists x, e, (errorMessageText e).
  repeat split; try assumption. apply errorMessageText_cases.
Qed.

Lemma C2_stage_failure_fails_turn_as_one_witness :
  updates (handleSubmit sampleClosure quotaEnv) =
  [(0, AppendMessage "chat-1"
         (mkMessage User [TextPart (Some "Explain photosynthesis")] None None None None));
   (1034, AppendMessage "chat-1"
            (mkMessage Model
               [TextPart (Some "Anda telah melebihi kuota API Anda saat ini. Silakan periksa paket dan detail tagihan Anda, atau coba lagi nanti.")]
               None None None None))]
  /\ callsOn SynthesizerCall (handleSubmit sampleClosure quotaEnv) = [].
Proof.
  destruct (@C2_stage_failure_fails_turn_as_one sampleClosure quotaEnv "chat-1" []
              quotaFailedCall (JsError "429 RESOURCE_EXHAUSTED: quota exceeded"))
    as ((x & e & txt & Hx & Sx & Fx & Eu & Ht) & N).
  - constructor; reflexivity.
  - vm_compute. repeat (first [left; reflexivity | right]).
  - reflexivity.
  - reflexivity.
  - split; [|apply N; reflexivity].
    assert (K : contains "429 RESOURCE_EXHAUSTED: quota exceeded" "RESOURCE_EXHAUSTED")
      by (exists "429 ", ": quota exceeded"; reflexivity).
    assert (X : issuedAt x = 1013 /\ slot x = RefinementCall 2).
    { vm_compute in Hx.
      repeat (destruct Hx as [<-|Hx]; [first [discriminate Fx | discriminate Sx | now split]|]).
      destruct Hx. }
    destruct X as [Xt Xs]. rewrite Eu, Xt, Xs. rewrite Xs in Fx.
    injection Fx as <-.
    destruct Ht as [[_ ->]|[(NK & _)|(NK & _)]]; [reflexivity | elim (NK K) | elim (NK K)].
Defined.

(** ** White space and [trim] *)

Lemma allWs_trimStart_le n : forall s, String.length s <= n -> allWs (trimStart s) = allWs s.
Proof.
  induction n as [|n IH]; intros s L.
  - destruct s; [reflexivity | simpl in L; lia].
  - destruct s as [|a r1]; [reflexivity|].
    cbn [allWs trimStart]. simpl in L.
    destruct (isWs1 a) eqn:W1; [apply IH; lia|].
    destruct r1 as [|b r2]; [cbn [allWs]; now rewrite W1|].
    simpl in L.
    destruct (isWs2 a b) eqn:W2; [apply IH; lia|].
    destruct r2 as [|x r3]; [cbn [allWs]; now rewrite W1, W2|].
    simpl in L.
    destruct (isWs3 a b x) eqn:W3; [apply IH; lia|].
    cbn [allWs]. now rewrite W1, W2, W3.
Qed.

Lemma allWs_trimStart s : allWs (trimStart s) = allWs s.
Proof. now apply (@allWs_trimStart_le (String.length s)). Qed.

(** The text trims to nothing exactly when it is empty or white space
    only. *)
Lemma trim_empty_iff s : isEmpty (trim s) = true <-> allWs s = true.
Proof.
  unfold trim. rewrite <- (allWs_trimStart s).
  destruct (trimStart s) as [|a r]; [now split|].
  cbn [trimEnd]. destruct (allWs (String a r)); now split.
Qed.

(** ** Where the memory call is made *)

Lemma memory_call_issued_only c env x :
  In x (calls (handleSubmit c env)) -> slot x = MemoryCall ->
  isEmpty (trim (userInput c)) = false /\ (model c =? IMAGE_MODEL) = false.
Proof.
  unfold handleSubmit.
  destruct (activeChatId c) as [chatId|]; [|intros []].
  destruct (_ || _); [intros []|].
  unfold prepend. cbn [calls]. intros H S.
  apply in_app_or in H as [H|H].
  { apply titleCalls_slot in H as [E _]. congruence. }
  destruct (falsy (finalApiKey c env)); [destruct H|].
  destruct (fileParts c env) as [fps|]; [|destruct H].
  destruct (model c =? IMAGE_MODEL) eqn:Em.
  - unfold bypass in H. cbn [calls] in H. destruct H as [<-|[]]. discriminate.
  - rewrite mainPipeline_calls in H. apply in_app_or in H as [H|H].
    + unfold memoryPromise in H.
      destruct (isEmpty (trim (userInput c))); [destruct H | now split].
    + apply multiAgent_calls in H as [St _]. rewrite S in St. discriminate.
Qed.

Lemma no_memory_call c env :
  isEmpty (trim (userInput c)) = true \/ model c = IMAGE_MODEL ->
  callsOn MemoryCall (handleSubmit c env) = [].
Proof.
  intros H. unfold callsOn. apply filter_none. intros x Hx.
  destruct (slotEqb (slot x) MemoryCall) eqn:E; [|reflexivity].
  apply slotEqb_eq in E. destruct (memory_call_issued_only c env x Hx E) as [T M].
  destruct H as [H|H]; [congruence|].
  rewrite H, String.eqb_refl in M. discriminate.
Qed.

(** ** C8 *)

(** C8.  When the user text is empty or white space only, the turn issues
    no call of the memory extraction task, with or without an attachment. *)
Theorem C8_blank_text_skips_memory_extraction :
  forall c env,
    allWs (userInput c) = true ->
    callsOn MemoryCall (handleSubmit c env) = [].
Proof.
  intros c env H. apply no_memory_call. left. now apply trim_empty_iff.
Qed.

Lemma C8_blank_text_skips_memory_extraction_witness :
  callsOn MemoryCall (handleSubmit attachmentClosure attachmentEnv) = []
  /\ length (calls (handleSubmit attachmentClosure attachmentEnv)) = 10.
Proof.
  split.
  - apply C8_blank_text_skips_memory_extraction. reflexivity.
  - reflexivity.
Defined.

(** ** C3 *)

Lemma memory_fold (us : list Update) (s : AppState) :
  (forall u, In u us -> isAppendMemory u = false) ->
  memory (fold_left applyUpdate us s) = memory s.
Proof.
  revert s. induction us as [|u us IH]; intros s H; [reflexivity|].
  cbn [fold_left]. rewrite IH by (intros v Hv; apply H; now right).
  specialize (H u (or_introl eq_refl)). now destruct u.
Qed.

Lemma bypass_updates c env chatId ups u :
  In u (updates (bypass c env chatId ups)) -> isAppendMemory (snd u) = false.
Proof.
  unfold bypass. cbn [updates].
  destruct (generateContent env 0 BypassCall); intros [<-|[]]; reflexivity.
Qed.

(** The claim C3 at a sample turn: under the image model, with the text
    "Explain photosynthesis", no call of the turn is a memory call. *)
Lemma C3_bypass_memory_call_counterexample :
  model imageClosure = IMAGE_MODEL
  /\ isEmpty (trim (userInput imageClosure)) = false
  /\ ~ (exists x, In x (calls (handleSubmit imageClosure sampleEnv)) /\ slot x = MemoryCall).
Proof.
  split; [reflexivity|]. split; [reflexivity|].
  intros (x & Hx & S). vm_compute in Hx.
  destruct Hx as [<-|[<-|[]]]; discriminate.
Qed.

(** C3 (amended).  Under the image model the memory extraction task does
    not run, whatever the user text: the turn issues no memory call, the
    task is never started, and the memory set is unchanged after the turn.
    On a turn that takes the bypass the calls are the title call of a first
    message, if any, and the one call to the image model, which asks for
    image and text output. *)
Theorem C3_bypass_runs_no_memory_extraction :
  forall c env,
    model c = IMAGE_MODEL ->
    callsOn MemoryCall (handleSubmit c env) = []
    /\ memorySettled (handleSubmit c env) = None
    /\ memory (finalState (state c) (handleSubmit c env)) = memory (state c)
    /\ (forall chatId fps,
          BypassTurn c env chatId fps ->
          calls (handleSubmit c env) =
          (titleCalls c env chatId
           ++ [mkIssued 0 BypassCall
                 (mkRequest IMAGE_MODEL
                    (Turns (buildApiHistory env (activeMessages c chatId)
                            ++ [mkContent User (userPartsForApi c fps)]))
                    None None (Some [IMAGE; TEXT]))])%list).
Proof.
  intros c env M. split; [|split; [|split]].
  - apply no_memory_call. now right.
  - unfold handleSubmit.
    destruct (activeChatId c) as [chatId|]; [|reflexivity].
    destruct (_ || _); [reflexivity|].
    destruct (falsy (finalApiKey c env)); [reflexivity|].
    destruct (fileParts c env) as [fps|]; [|reflexivity].
    rewrite M, String.eqb_refl. reflexivity.
  - unfold finalState. apply memory_fold. intros u Hu.
    apply in_map_iff in Hu as ([t u'] & <- & Hu). cbn [snd].
    revert Hu. unfold handleSubmit.
    destruct (activeChatId c) as [chatId|]; [|intros []].
    destruct (_ || _); [intros []|].
    unfold prepend. cbn [updates]. intros [E|Hu]; [injection E as _ <-; reflexivity|].
    destruct (falsy (finalApiKey c env)).
    { destruct Hu as [E|[]]. injection E as _ <-. reflexivity. }
    destruct (fileParts c env) as [fps|].
    + rewrite M, String.eqb_refl in Hu. now apply bypass_updates in Hu.
    + destruct Hu as [E|[]]. injection E as _ <-. reflexivity.
  - intros chatId fps HB. rewrite (handleSubmit_bypass HB).
    unfold prepend, bypass. cbn [calls]. now rewrite M.
Qed.

Lemma C3_bypass_runs_no_memory_extraction_witness :
  callsOn MemoryCall (handleSubmit imageClosure sampleEnv) = []
  /\ length (calls (handleSubmit imageClosure sampleEnv)) = 2.
Proof.
  destruct (@C3_bypass_runs_no_memory_extraction imageClosure sampleEnv eq_refl)
    as (N & _ & _ & C).
  split; [exact N|].
  rewrite (C "chat-1" []); [reflexivity|].
  constructor; reflexivity.
Defined.

(** ** C9 *)

Lemma arrayIncludes_In (mem : list string) (fact : string) :
  arrayIncludes mem fact = true <-> In fact mem.
Proof.
  unfold arrayIncludes. rewrite existsb_exists. split.
  - intros (x & Hx & E). apply String.eqb_eq in E. now subst.
  - intros H. exists fact. split; [exact H | apply String.eqb_refl].
Qed.

Lemma memoryUpdate_known (mem : list string) (newMemory : option string) :
  (forall fact, newMemory = Some fact -> In fact mem) ->
  memoryUpdate mem newMemory = [].
Proof.
  intros H. destruct newMemory as [fact|]; [|reflexivity].
  unfold memoryUpdate. specialize (H fact eq_refl). apply arrayIncludes_In in H.
  rewrite H. now rewrite andb_false_r.
Qed.

Lemma memoryAfter_idempotent (mem : list string) (newMemory : option string) :
  memoryAfter (memoryAfter mem newMemory) newMemory = memoryAfter mem newMemory.
Proof.
  destruct newMemory as [fact|]; [|reflexivity].
  unfold memoryAfter at 2 3. unfold memoryUpdate.
  destruct (isEmpty fact) eqn:E.
  - cbn. unfold memoryAfter, memoryUpdate. now rewrite E.
  - destruct (arrayIncludes mem fact) eqn:I; cbn.
    + unfold memoryAfter, memoryUpdate. now rewrite E, I.
    + unfold memoryAfter. rewrite memoryUpdate_known; [reflexivity|].
      intros f [= <-]. apply in_or_app. right. now left.
Qed.

(** What the memory task leaves in [newMemory] when its call answers with
    a text. *)
Lemma memoryPromise_answer c env hist r t :
  answers env MemoryCall r -> text r = Some t ->
  exists tm newMemory,
    snd (memoryPromise c env hist) = Fulfilled tm newMemory
    /\ (forall fact, newMemory = Some fact -> fact = trim t).
Proof.
  intros A T. unfold memoryPromise.
  destruct (isEmpty (trim (userInput c))); cbn [snd].
  - eexists _, _. split; [reflexivity | discriminate].
  - unfold generateContent. unfold answers in A. rewrite A, T.
    eexists _, _. split; [reflexivity|].
    intros fact. destruct (_ && _); [now intros [= <-] | discriminate].
Qed.

(** C9.  A proposed fact that is string-equal to a fact of the memory set
    causes no update and leaves the set as it is; proposing the same fact
    again, to the set that results, changes nothing more; and a
    main-pipeline turn whose memory call answers with a known fact ends
    with the memory set it started with. *)
Theorem C9_known_fact_is_not_added_again :
  forall mem fact,
    In fact mem ->
    memoryUpdate mem (Some fact) = []
    /\ memoryAfter mem (Some fact) = mem
    /\ (forall m newMemory,
          memoryAfter (memoryAfter m newMemory) newMemory = memoryAfter m newMemory)
    /\ (forall c env chatId fps r t,
          MainTurn c env chatId fps -> memory (state c) = mem ->
          answers env MemoryCall r -> text r = Some t -> trim t = fact ->
          memory (finalState (state c) (handleSubmit c env)) = mem).
Proof.
  intros mem fact Hin.
  assert (U : memoryUpdate mem (Some fact) = []).
  { apply memoryUpdate_known. now intros f [= <-]. }
  split; [exact U|]. split; [unfold memoryAfter; now rewrite U|].
  split; [exact memoryAfter_idempotent|].
  intros c env chatId fps r t HM Hmem A T Tr.
  rewrite <- Hmem. unfold finalState. apply memory_fold.
  intros u Hu. apply in_map_iff in Hu as ([tu u'] & <- & Hu). cbn [snd].
  rewrite (main_updates HM) in Hu.
  destruct Hu as [E|Hu]; [injection E as _ <-; reflexivity|].
  destruct (memoryPromise_answer c (buildApiHistory env (activeMessages c chatId)) A T)
    as (tm & nm & Em & Hnm).
  destruct (snd (multiAgentPromise c env (buildApiHistory env (activeMessages c chatId))
                   (userPartsForApi c fps))) as [tp fr|tp e] eqn:Ep.
  - destruct (mainPipeline_fulfilled _ _ _ _ Em Ep) as (Eu & _ & _).
    rewrite Eu in Hu. rewrite memoryUpdate_known in Hu.
    + destruct Hu as [E|[]]. injection E as _ <-. reflexivity.
    + intros f Hf. apply Hnm in Hf. rewrite Hmem. congruence.
  - destruct (mainPipeline_rejected _ _ _ _ Ep) as (Eu & _).
    rewrite Eu in Hu. destruct Hu as [E|[]]. injection E as _ <-. reflexivity.
Qed.

Lemma C9_known_fact_is_not_added_again_witness :
  memory (finalState sampleState (handleSubmit sampleClosure knownFactEnv))
  = ["Likes tea"; "Lives in Bandung"].
Proof.
  destruct (@C9_known_fact_is_not_added_again ["Likes tea"; "Lives in Bandung"] "Likes tea")
    as (_ & _ & _ & H).
  - left. reflexivity.
  - apply (H sampleClosure knownFactEnv "chat-1" []
             (mkResponse (Some " Likes tea ") None None) " Likes tea ").
    + constructor; reflexivity.
    + reflexivity.
    + reflexivity.
    + reflexivity.
    + reflexivity.
Defined.

(** ** C10 *)

(** The claim C10 at two sample turns.  The image model answers with an
    empty list of parts: the message appended is the message without parts.
    The synthesizer of the main pipeline answers without text: the message
    appended has a text part whose text is undefined.  Neither is the
    fallback text. *)
Lemma C10_fallback_counterexample :
  (answers emptyPartsEnv BypassCall (mkResponse None (Some []) None)
   /\ updates (handleSubmit imageClosure emptyPartsEnv) =
      [(0, AppendMessage "chat-1" (userMessage imageClosure));
       (50, AppendMessage "chat-1" (modelMessage []))]
   /\ ~ In (50, AppendMessage "chat-1" (modelMessage [TextPart (Some FALLBACK_TEXT)]))
           (updates (handleSubmit imageClosure emptyPartsEnv)))
  /\ (answers missingTextEnv SynthesizerCall (mkResponse None None None)
      /\ updates (handleSubmit sampleClosure missingTextEnv) =
         [(0, AppendMessage "chat-1" (userMessage sampleClosure));
          (2041, AppendMessage "chat-1"
                   (mkMessage Model [TextPart None] None (Some false) None None))]).
Proof.
  split.
  - split; [reflexivity|]. split; [reflexivity|].
    vm_compute. intros [H|[H|[]]]; discriminate.
  - split; reflexivity.
Qed.

(** C10 (amended).  On the bypass path, when the call of the image model
    answers, the turn appends after the user's message one model message:
    with the fallback text "Could not get a response." as its only part
    when the response carries no content parts, and with the parts of the
    response as they are, an empty list included, when it carries them. *)
Theorem C10_bypass_fallback_on_missing_parts :
  forall c env chatId fps r,
    BypassTurn c env chatId fps ->
    answers env BypassCall r ->
    (contentParts r = None ->
     updates (handleSubmit c env) =
     [(0, AppendMessage chatId (userMessage c));
      (latency (gateway env BypassCall),
       AppendMessage chatId
         (mkMessage Model [TextPart (Some "Could not get a response.")]
            None None None None))])
    /\ (forall ps, contentParts r = Some ps ->
        updates (handleSubmit c env) =
        [(0, AppendMessage chatId (userMessage c));
         (latency (gateway env BypassCall),
          AppendMessage chatId (mkMessage Model ps None None None None))]).
Proof.
  intros c env chatId fps r HB A.
  rewrite (handleSubmit_bypass HB). unfold prepend, bypass. cbn [updates].
  unfold generateContent. unfold answers in A. rewrite A. cbn [Nat.add app].
  split.
  - now intros ->.
  - now intros ps ->.
Qed.

Lemma C10_bypass_fallback_on_missing_parts_witness :
  updates (handleSubmit imageClosure missingPartsEnv) =
  [(0, AppendMessage "chat-1"
         (mkMessage User [TextPart (Some "Explain photosynthesis")] None None None None));
   (50, AppendMessage "chat-1"
          (mkMessage Model [TextPart (Some "Could not get a response.")]
             None None None None))].
Proof.
  destruct (@C10_bypass_fallback_on_missing_parts imageClosure missingPartsEnv "chat-1" []
              (mkResponse None None None)) as [H _].
  - constructor; reflexivity.
  - reflexivity.
  - apply H. reflexivity.
Defined.

(** ** C7 *)

Lemma memoryPromise_failure c env hist e :
  fails env MemoryCall e ->
  memoryPromise c (withReply env MemoryCall
                     (mkReply (latency (gateway env MemoryCall)) (inl noUpdateResponse))) hist
  = memoryPromise c env hist
  /\ exists tm, snd (memoryPromise c env hist) = Fulfilled tm None.
Proof.
  intros F. unfold memoryPromise.
  destruct (isEmpty (trim (userInput c))).
  - split; [reflexivity | now exists 0].
  - unfold generateContent. unfold fails in F. rewrite F.
    split; [reflexivity | cbn [snd]; eauto].
Qed.

(** C7.  On a main-pipeline turn whose memory call rejects, the run is the
    run of the same turn with a memory call that answers NO_UPDATE after the
    same time: the same calls, the same updates at the same times.  No
    update of the turn is a memory update, and when the pipeline fulfils
    with a final result, the turn appends that result's text as the
    assistant message, marked as no memory update. *)
Theorem C7_memory_failure_is_swallowed :
  forall c env chatId fps e,
    MainTurn c env chatId fps ->
    fails env MemoryCall e ->
    handleSubmit c env =
    handleSubmit c (withReply env MemoryCall
                      (mkReply (latency (gateway env MemoryCall)) (inl noUpdateResponse)))
    /\ (forall u, In u (updates (handleSubmit c env)) -> isAppendMemory (snd u) = false)
    /\ (forall tp finalResult,
          snd (multiAgentPromise c env (buildApiHistory env (activeMessages c chatId))
                 (userPartsForApi c fps)) = Fulfilled tp finalResult ->
          exists t,
            updates (handleSubmit c env) =
            [(0, AppendMessage chatId (userMessage c));
             (t, AppendMessage chatId
                   (mkMessage Model [TextPart (text finalResult)] None (Some false) None
                      (groundingMetadataChunks finalResult)))]).
Proof.
  intros c env chatId fps e HM F.
  set (env' := withReply env MemoryCall
                 (mkReply (latency (gateway env MemoryCall)) (inl noUpdateResponse))).
  set (hist := buildApiHistory env (activeMessages c chatId)).
  destruct (memoryPromise_failure c hist F) as (Em & tm & Es). fold env' in Em.
  assert (HM' : MainTurn c env' chatId fps) by (destruct HM; now constructor).
  split; [|split].
  - rewrite (handleSubmit_main HM), (handleSubmit_main HM').
    f_equal. unfold mainPipeline.
    change (buildApiHistory env' (activeMessages c chatId)) with hist. fold hist.
    rewrite Em. reflexivity.
  - intros [t u] Hu. cbn [snd]. rewrite (main_updates HM) in Hu.
    destruct Hu as [E|Hu]; [injection E as _ <-; reflexivity|]. fold hist in Hu.
    destruct (snd (multiAgentPromise c env hist (userPartsForApi c fps)))
      as [tp fr|tp e'] eqn:Ep.
    + destruct (mainPipeline_fulfilled _ _ _ _ Es Ep) as (Eu & _ & _).
      rewrite Eu in Hu. destruct Hu as [E|[]]. injection E as _ <-. reflexivity.
    + destruct (mainPipeline_rejected _ _ _ _ Ep) as (Eu & _).
      rewrite Eu in Hu. destruct Hu as [E|[]]. injection E as _ <-. reflexivity.
  - intros tp fr Ep. exists (Nat.max tm tp).
    rewrite (main_updates HM).
    destruct (mainPipeline_fulfilled _ _ _ _ Es Ep) as (Eu & _ & _).
    rewrite Eu. reflexivity.
Qed.

Lemma C7_memory_failure_is_swallowed_witness :
  updates (handleSubmit sampleClosure memoryFailEnv) =
  [(0, AppendMessage "chat-1" (userMessage sampleClosure));
   (2041, AppendMessage "chat-1"
            (mkMessage Model [TextPart (Some "final")] None (Some false) None None))].
Proof.
  destruct (@C7_memory_failure_is_swallowed sampleClosure memoryFailEnv "chat-1" []
              (JsError "503 UNAVAILABLE")) as (E & _ & _).
  - constructor; reflexivity.
  - reflexivity.
  - rewrite E. reflexivity.
Defined.

(** ** C6 *)




(** * More properties *)

(** ** [trim] removes all white space at both ends, and only that *)

Lemma allWs_app_le n : forall u v,
  String.length u <= n -> allWs u = true -> allWs (u ++ v) = allWs v.
Proof.
  induction n as [|n IH]; intros u v L H.
  - destruct u; [reflexivity | simpl in L; lia].
  - destruct u as [|a r1]; [reflexivity|].
    simpl in L. cbn [append allWs] in *.
    destruct (isWs1 a); [apply IH; [lia | exact H]|].
    destruct r1 as [|b r2]; [discriminate|].
    simpl in L. cbn [append] in *.
    destruct (isWs2 a b); [apply IH; [lia | exact H]|].
    destruct r2 as [|x r3]; [discriminate|].
    simpl in L. cbn [append] in *.
    destruct (isWs3 a b x); [apply IH; [lia | exact H] | discriminate].
Qed.

Lemma allWs_app u v : allWs u = true -> allWs (u ++ v) = allWs v.
Proof. now apply (@allWs_app_le (String.length u)). Qed.

Lemma trimEnd_split s : exists w, s = trimEnd s ++ w /\ allWs w = true.
Proof.
  induction s as [|a r IH].
  - now exists EmptyString.
  - cbn [trimEnd]. destruct (allWs (String a r)) eqn:E.
    + now exists (String a r).
    + destruct IH as (w & Hw & Aw). exists w. split; [|exact Aw].
      cbn [append]. now rewrite <- Hw.
Qed.

Lemma trimStart_split_le n : forall s,
  String.length s <= n -> exists w, s = w ++ trimStart s /\ allWs w = true.
Proof.
  induction n as [|n IH]; intros s L.
  - destruct s; [now exists EmptyString | simpl in L; lia].
  - destruct s as [|a r1]; [now exists EmptyString|].
    simpl in L. cbn [trimStart].
    destruct (isWs1 a) eqn:W1.
    { destruct (IH r1 ltac:(lia)) as (w & Hw & Aw). exists (String a w). split.
      - cbn [append]. now rewrite <- Hw.
      - cbn [allWs]. now rewrite W1. }
    destruct r1 as [|b r2]; [now exists EmptyString|].
    simpl in L.
    destruct (isWs2 a b) eqn:W2.
    { destruct (IH r2 ltac:(lia)) as (w & Hw & Aw). exists (String a (String b w)). split.
      - cbn [append]. now rewrite <- Hw.
      - cbn [allWs]. now rewrite W1, W2. }
    destruct r2 as [|x r3]; [now exists EmptyString|].
    simpl in L.
    destruct (isWs3 a b x) eqn:W3; [|now exists EmptyString].
    destruct (IH r3 ltac:(lia)) as (w & Hw & Aw).
    exists (String a (String b (String x w))). split.
    + cbn [append]. now rewrite <- Hw.
    + cbn [allWs]. now rewrite W1, W2, W3.
Qed.

Lemma trimStart_split s : exists w, s = w ++ trimStart s /\ allWs w = true.
Proof. now apply (@trimStart_split_le (String.length s)). Qed.

Lemma headWs_trimStart_le n : forall s,
  String.length s <= n -> headWs (trimStart s) = false.
Proof.
  induction n as [|n IH]; intros s L.
  - destruct s; [reflexivity | simpl in L; lia].
  - destruct s as [|a r1]; [reflexivity|].
    simpl in L. cbn [trimStart].
    destruct (isWs1 a) eqn:W1; [apply IH; lia|].
    destruct r1 as [|b r2]; [cbn [headWs]; now rewrite W1|].
    simpl in L.
    destruct (isWs2 a b) eqn:W2; [apply IH; lia|].
    destruct r2 as [|x r3]; [cbn [headWs]; now rewrite W1, W2|].
    simpl in L.
    destruct (isWs3 a b x) eqn:W3; [apply IH; lia|].
    cbn [headWs]. now rewrite W1, W2, W3.
Qed.

Lemma headWs_trimStart s : headWs (trimStart s) = false.
Proof. now apply (@headWs_trimStart_le (String.length s)). Qed.

Lemma trimStart_clean s : headWs s = false -> trimStart s = s.
Proof.
  destruct s as [|a r1]; [reflexivity|].
  cbn [headWs trimStart]. destruct (isWs1 a); [discriminate|].
  destruct r1 as [|b r2]; [reflexivity|].
  destruct (isWs2 a b); [discriminate|].
  destruct r2 as [|x r3]; [reflexivity|].
  now destruct (isWs3 a b x).
Qed.

Lemma headWs_prefix p w : headWs p = true -> headWs (p ++ w) = true.
Proof.
  destruct p as [|a r1]; [discriminate|].
  cbn [headWs append]. destruct (isWs1 a); [reflexivity|].
  destruct r1 as [|b r2]; [discriminate|].
  cbn [append]. destruct (isWs2 a b); [reflexivity|].
  destruct r2 as [|x r3]; [discriminate|].
  cbn [append]. now destruct (isWs3 a b x).
Qed.

Lemma allWs_trimEnd_cons a r :
  allWs (String a (trimEnd r)) = true -> allWs (String a r) = true.
Proof.
  intros H. destruct (trimEnd_split r) as (w & Hw & Aw).
  rewrite Hw at 1.
  change (String a (trimEnd r ++ w)) with (String a (trimEnd r) ++ w).
  now rewrite (allWs_app _ w H).
Qed.

Lemma trimEnd_idem s : trimEnd (trimEnd s) = trimEnd s.
Proof.
  induction s as [|a r IH]; [reflexivity|].
  cbn [trimEnd]. destruct (allWs (String a r)) eqn:E; [reflexivity|].
  cbn [trimEnd]. destruct (allWs (String a (trimEnd r))) eqn:E'.
  - apply allWs_trimEnd_cons in E'. congruence.
  - now rewrite IH.
Qed.

(** Trimming twice is trimming once. *)
Lemma trim_idem s : trim (trim s) = trim s.
Proof.
  unfold trim.
  assert (C : trimStart (trimEnd (trimStart s)) = trimEnd (trimStart s)).
  { apply trimStart_clean.
    destruct (headWs (trimEnd (trimStart s))) eqn:E; [|reflexivity].
    destruct (trimEnd_split (trimStart s)) as (w & Hw & _).
    apply (headWs_prefix _ w) in E. rewrite <- Hw, headWs_trimStart in E. discriminate. }
  rewrite C. apply trimEnd_idem.
Qed.

Lemma hasChar_app c u v : hasChar c (u ++ v) = hasChar c u || hasChar c v.
Proof.
  induction u as [|a u IH]; [reflexivity|].
  cbn [append hasChar]. rewrite IH. now rewrite orb_assoc.
Qed.

(** A character absent from a string is absent from its trimmed form. *)
Lemma hasChar_trim c s : hasChar c s = false -> hasChar c (trim s) = false.
Proof.
  intros H. unfold trim.
  destruct (trimStart_split s) as (w & Hw & _).
  destruct (trimEnd_split (trimStart s)) as (w' & Hw' & _).
  rewrite Hw, hasChar_app in H. apply orb_false_iff in H as [_ H].
  rewrite Hw', hasChar_app in H. now apply orb_false_iff in H as [H _].
Qed.

(** ** The settings dialog *)

Lemma splitOn_pieces sep s piece :
  In piece (splitOn sep s) -> hasChar sep piece = false.
Proof.
  revert piece. induction s as [|a r IH]; intros piece H.
  - destruct H as [<-|[]]. reflexivity.
  - cbn [splitOn] in H. destruct (Ascii.eqb a sep) eqn:E.
    + destruct H as [<-|H]; [reflexivity | now apply IH].
    + destruct (splitOn sep r) as [|x xs].
      * destruct H as [<-|[]]. cbn [hasChar]. now rewrite E.
      * destruct H as [<-|H].
        -- cbn [hasChar]. rewrite E. apply IH. now left.
        -- apply IH. now right.
Qed.

Lemma splitOn_whole sep s : hasChar sep s = false -> splitOn sep s = [s].
Proof.
  induction s as [|a r IH]; intros H; [reflexivity|].
  cbn [hasChar] in H. apply orb_false_iff in H as [E H].
  cbn [splitOn]. now rewrite E, (IH H).
Qed.

Lemma splitOn_first sep s rest :
  hasChar sep s = false ->
  splitOn sep (s ++ String sep rest) = s :: splitOn sep rest.
Proof.
  induction s as [|a r IH]; intros H.
  - cbn [append splitOn]. now rewrite Ascii.eqb_refl.
  - cbn [hasChar] in H. apply orb_false_iff in H as [E H].
    cbn [append splitOn]. now rewrite E, (IH H).
Qed.

Lemma splitOn_join (mem : list string) :
  mem <> [] ->
  (forall fact, In fact mem -> hasChar "010"%char fact = false) ->
  splitOn "010"%char (join nl mem) = mem.
Proof.
  unfold join. induction mem as [|f mem IH]; intros Hne H; [contradiction|].
  destruct mem as [|g mem].
  - cbn [String.concat]. apply splitOn_whole. apply H. now left.
  - change (String.concat nl (f :: g :: mem))
      with (f ++ String "010"%char (String.concat nl (g :: mem))).
    rewrite splitOn_first by (apply H; now left).
    rewrite IH; [reflexivity | discriminate|].
    intros fact Hf. apply H. now right.
Qed.

Lemma handleSave_clean editedMemory editedApiKey fact :
  In fact (fst (handleSave editedMemory editedApiKey)) -> cleanFact fact.
Proof.
  intros H. unfold handleSave in H. cbn [fst] in H.
  apply filter_In in H as [H Ne]. apply in_map_iff in H as (piece & <- & Hp).
  apply splitOn_pieces in Hp. repeat split.
  - intros E. rewrite E in Ne. discriminate.
  - apply trim_idem.
  - now apply hasChar_trim.
Qed.

(** The facts stored by the dialog's save are never empty, carry no white
    space at either end and no line feed, whatever was typed; the API key is
    passed on as typed. *)
Theorem handleSave_stores_clean_facts :
  forall editedMemory editedApiKey,
    snd (handleSave editedMemory editedApiKey) = editedApiKey
    /\ (forall fact, In fact (fst (handleSave editedMemory editedApiKey)) ->
                     cleanFact fact).
Proof.
  intros text key. split; [reflexivity|].
  intros fact H. now apply (@handleSave_clean text key).
Qed.

Lemma handleSave_stores_clean_facts_witness :
  cleanFact "Likes tea".
Proof.
  apply (proj2 (handleSave_stores_clean_facts
                  (String " "%char ("Likes tea  " ++ nl ++ nl ++ "  Lives in Bandung")) "key")).
  vm_compute. left. reflexivity.
Defined.

(** Opening the dialog on a memory set of clean facts and saving without
    editing gives the same memory set back; so saving what a save produced
    changes nothing. *)
Theorem handleSave_round_trip :
  forall mem editedApiKey,
    Forall cleanFact mem ->
    handleSave (editedMemoryOf mem) editedApiKey = (mem, editedApiKey)
    /\ (forall typed key,
          handleSave (editedMemoryOf (fst (handleSave typed key))) editedApiKey
          = (fst (handleSave typed key), editedApiKey)).
Proof.
  assert (R : forall mem key, Forall cleanFact mem ->
                              handleSave (editedMemoryOf mem) key = (mem, key)).
  { intros mem key H. unfold handleSave, editedMemoryOf. f_equal.
    destruct mem as [|f mem]; [reflexivity|].
    rewrite Forall_forall in H.
    rewrite splitOn_join; [|discriminate | intros fact Hf; now apply H].
    assert (T : map trim (f :: mem) = f :: mem).
    { rewrite <- (map_id (f :: mem)) at 2. apply map_ext_in.
      intros fact Hf. now apply H. }
    rewrite T. apply forallb_filter_id. apply forallb_forall.
    intros fact Hf. destruct (H fact Hf) as (Ne & _ & _). now destruct fact. }
  intros mem key H. split; [now apply R|].
  intros typed key'. apply R. apply Forall_forall. intros fact Hf.
  now apply (@handleSave_clean typed key').
Qed.

Lemma handleSave_round_trip_witness :
  handleSave (editedMemoryOf ["Likes tea"; "Lives in Bandung"]) "key"
  = (["Likes tea"; "Lives in Bandung"], "key").
Proof.
  apply (@handleSave_round_trip ["Likes tea"; "Lives in Bandung"] "key").
  repeat constructor; try reflexivity; discriminate.
Defined.

(** ** The handler on its other paths *)

Lemma handleSubmit_submitted c env chatId :
  Submitted c chatId ->
  handleSubmit c env =
  prepend (titleCalls c env chatId) [(0, AppendMessage chatId (userMessage c))]
    (if falsy (finalApiKey c env)
     then mkOutcome [] [(0, AppendMessage chatId (errorMessage (JsError NO_KEY_MESSAGE)))]
            None None
     else
       match fileParts c env with
       | None =>
         mkOutcome [] [(0, AppendMessage chatId (modelMessage [TextPart (Some FILE_ERROR_TEXT)]))]
           None None
       | Some fps =>
         if model c =? IMAGE_MODEL
         then bypass c env chatId (userPartsForApi c fps)
         else mainPipeline c env chatId (userPartsForApi c fps)
       end).
Proof.
  intros [Hc Hs]. unfold handleSubmit. now rewrite Hc, Hs.
Qed.

Lemma handleSubmit_not_submitted c env :
  (forall chatId, ~ Submitted c chatId) -> handleSubmit c env = noOutcome.
Proof.
  intros H. unfold handleSubmit.
  destruct (activeChatId c) as [chatId|] eqn:Ec; [|reflexivity].
  destruct (_ || _) eqn:Es; [reflexivity|].
  elim (H chatId). now constructor.
Qed.

(** Nothing to send: without an active chat, or with a blank text and no
    attachment, the handler issues no call and updates nothing. *)
Theorem handleSubmit_nothing_to_send :
  forall c env,
    activeChatId c = None \/ activeChatId c = Some EmptyString
    \/ (allWs (userInput c) = true /\ attachment c = None) ->
    handleSubmit c env = noOutcome.
Proof.
  intros c env H. apply handleSubmit_not_submitted. intros chatId [Hc Hs].
  destruct H as [H|[H|[W A]]].
  - congruence.
  - rewrite H in Hc. injection Hc as <-. discriminate.
  - apply trim_empty_iff in W. rewrite W, A in Hs.
    now rewrite orb_true_r in Hs.
Qed.

Lemma handleSubmit_nothing_to_send_witness :
  handleSubmit
    (mkClosure sampleState (Some "chat-1") "gemini-2.5-flash" "key" true None
       (String " "%char (String "010"%char EmptyString)))
    sampleEnv = noOutcome.
Proof.
  apply handleSubmit_nothing_to_send. right. right. split; reflexivity.
Defined.

(** Missing key: when neither the settings nor the environment hold an API
    key, a submitted turn issues no Gateway call at all, not even for the
    title, and after the user's message appends one message with the
    generic error text for "API key is not set. Please add it in
    Settings.". *)
Theorem handleSubmit_without_api_key :
  forall c env chatId,
    Submitted c chatId ->
    apiKey c = EmptyString -> falsy (envApiKey env) = true ->
    calls (handleSubmit c env) = []
    /\ updates (handleSubmit c env) =
       [(0, AppendMessage chatId (userMessage c));
        (0, AppendMessage chatId
              (mkMessage Model
                 [TextPart (Some "Terjadi kesalahan: API key is not set. Please add it in Settings.")]
                 None None None None))].
Proof.
  intros c env chatId HS Hk He.
  assert (F : falsy (finalApiKey c env) = true).
  { unfold finalApiKey. now rewrite Hk. }
  rewrite (handleSubmit_submitted env HS), F.
  unfold prepend, titleCalls, generateTitle. rewrite F. cbn [calls updates].
  split; [now destruct (isFirstMessage c chatId) | reflexivity].
Qed.

Lemma handleSubmit_without_api_key_witness :
  calls (handleSubmit noKeyClosure sampleEnv) = [].
Proof.
  apply (@handleSubmit_without_api_key noKeyClosure sampleEnv "chat-1").
  - constructor; reflexivity.
  - reflexivity.
  - reflexivity.
Defined.

(** Unreadable attachment: when the attachment of a submitted turn cannot
    be converted, the turn appends the fixed apology after the user's
    message and runs neither the pipeline nor the bypass; the only call it
    may have issued is the title call, which goes out before the
    conversion is tried (it does on a chat's first message). *)
Theorem handleSubmit_unreadable_attachment :
  forall c env chatId f,
    Submitted c chatId ->
    falsy (finalApiKey c env) = false ->
    attachment c = Some f -> readFile env f = None ->
    updates (handleSubmit c env) =
    [(0, AppendMessage chatId (userMessage c));
     (0, AppendMessage chatId
           (mkMessage Model [TextPart (Some "Sorry, failed to process the attached file.")]
              None None None None))]
    /\ (forall x, In x (calls (handleSubmit c env)) -> slot x = TitleCall)
    /\ (isFirstMessage c chatId = true -> length (calls (handleSubmit c env)) = 1).
Proof.
  intros c env chatId f HS Hk Ha Hr.
  assert (P : fileParts c env = None).
  { unfold fileParts, fileToGenerativePart. now rewrite Ha, Hr. }
  rewrite (handleSubmit_submitted env HS), Hk, P.
  unfold prepend. cbn [calls updates]. rewrite app_nil_r.
  split; [reflexivity|]. split.
  - intros x Hx. now apply titleCalls_slot in Hx.
  - intros Hf. unfold titleCalls, generateTitle. now rewrite Hf, Hk.
Qed.

Lemma handleSubmit_unreadable_attachment_witness :
  length (calls (handleSubmit leafClosure sampleEnv)) = 1.
Proof.
  apply (@handleSubmit_unreadable_attachment leafClosure sampleEnv "chat-1" sampleFile).
  - constructor; reflexivity.
  - reflexivity.
  - reflexivity.
  - reflexivity.
  - reflexivity.
Defined.

(** ** What a submitted turn does to the state *)

Lemma memoryPromise_fact c env hist tm newMemory :
  snd (memoryPromise c env hist) = Fulfilled tm newMemory ->
  forall fact, newMemory = Some fact ->
               fact <> EmptyString /\ fact <> "NO_UPDATE" /\ trim fact = fact.
Proof.
  unfold memoryPromise.
  destruct (isEmpty (trim (userInput c))); cbn [snd].
  { intros [= _ <-] fact. discriminate. }
  destruct (generateContent env 0 MemoryCall) as [t0 r|t0 e]; cbn [settleTime].
  - destruct (text r) as [t|]; [|intros [= _ <-] fact; discriminate].
    destruct (negb (isEmpty (trim t)) && negb (trim t =? "NO_UPDATE")) eqn:E;
      [|intros [= _ <-] fact; discriminate].
    intros [= _ <-] fact [= <-].
    apply andb_true_iff in E as [E1 E2].
    apply negb_true_iff in E1, E2. apply String.eqb_neq in E2.
    repeat split; [|exact E2 | apply trim_idem].
    intros Z. rewrite Z in E1. discriminate.
  - intros [= _ <-] fact. discriminate.
Qed.

Lemma memoryUpdate_cases (mem : list string) (newMemory : option string) :
  memoryUpdate mem newMemory = []
  \/ exists fact, newMemory = Some fact
                  /\ memoryUpdate mem newMemory = [AppendMemory fact]
                  /\ ~ In fact mem.
Proof.
  destruct newMemory as [fact|]; [|now left].
  unfold memoryUpdate.
  destruct (isEmpty fact); [now left|].
  destruct (arrayIncludes mem fact) eqn:I; [now left|].
  right. exists fact. repeat split.
  intros H. apply arrayIncludes_In in H. congruence.
Qed.

(** The updates of a submitted turn: the user's message, then, at one
    moment, the memory update (if any) and one model message. *)
Lemma handleSubmit_updates_shape c env chatId :
  Submitted c chatId ->
  exists newMemory t m,
    updates (handleSubmit c env) =
    (0, AppendMessage chatId (userMessage c))
      :: stamp t (memoryUpdate (memory (state c)) newMemory ++ [AppendMessage chatId m])%list
    /\ msgRole m = Model
    /\ (forall fact, newMemory = Some fact ->
                     fact <> EmptyString /\ fact <> "NO_UPDATE" /\ trim fact = fact).
Proof.
  intros HS. rewrite (handleSubmit_submitted env HS).
  unfold prepend. cbn [updates].
  destruct (falsy (finalApiKey c env)).
  { exists None, 0, (errorMessage (JsError NO_KEY_MESSAGE)).
    repeat split; discriminate. }
  destruct (fileParts c env) as [fps|].
  2:{ exists None, 0, (modelMessage [TextPart (Some FILE_ERROR_TEXT)]).
      repeat split; discriminate. }
  destruct (model c =? IMAGE_MODEL).
  - unfold bypass. cbn [updates].
    destruct (generateContent env 0 BypassCall) as [t r|t e].
    + eexists None, t, _. repeat split; discriminate.
    + exists None, t, (errorMessage e). repeat split; discriminate.
  - destruct (memoryPromise_settles c env (buildApiHistory env (activeMessages c chatId)))
      as (tm & nm & Em).
    destruct (snd (multiAgentPromise c env (buildApiHistory env (activeMessages c chatId))
                     (userPartsForApi c fps))) as [tp fr|tp e] eqn:Ep.
    + destruct (mainPipeline_fulfilled _ _ _ _ Em Ep) as (Eu & _ & _).
      rewrite Eu. eexists nm, _, _. split; [reflexivity|]. split; [reflexivity|].
      exact (memoryPromise_fact _ _ _ Em).
    + destruct (mainPipeline_rejected _ _ _ _ Ep) as (Eu & _).
      rewrite Eu. exists None, tp, (errorMessage e). repeat split; discriminate.
Qed.

Lemma map_snd_stamp t (us : list Update) : map snd (stamp t us) = us.
Proof.
  unfold stamp. rewrite map_map. cbn [snd]. apply map_id.
Qed.

Lemma appendTo_twice chatId m1 m2 (ch : ChatSession) :
  appendTo chatId m2 (appendTo chatId m1 ch) =
  if id ch =? chatId then mkChat (id ch) (title ch) (messages ch ++ [m1; m2])%list else ch.
Proof.
  unfold appendTo. destruct (id ch =? chatId) eqn:E.
  - cbn [id title messages]. rewrite E. now rewrite <- app_assoc.
  - now rewrite E.
Qed.

(** One exchange per turn, appended: a submitted turn leaves every chat
    other than the active one as it was, and gives the active chat exactly
    two more messages at the end, the user's message and one model-role
    message, on every path (answer, bypass, error). *)
Theorem handleSubmit_appends_one_exchange :
  forall c env chatId,
    Submitted c chatId ->
    exists m,
      msgRole m = Model
      /\ chats (finalState (state c) (handleSubmit c env)) =
         map (fun ch =>
                if id ch =? chatId
                then mkChat (id ch) (title ch) (messages ch ++ [userMessage c; m])%list
                else ch)
             (chats (state c)).
Proof.
  intros c env chatId HS.
  destruct (handleSubmit_updates_shape env HS) as (nm & t & m & Eu & Rm & _).
  exists m. split; [exact Rm|].
  unfold finalState. rewrite Eu. cbn [map snd fold_left]. rewrite map_snd_stamp.
  rewrite fold_left_app. cbn [fold_left applyUpdate chats].
  assert (E : chats (fold_left applyUpdate (memoryUpdate (memory (state c)) nm)
                       (mkState (map (appendTo chatId (userMessage c)) (chats (state c)))
                          (memory (state c))))
              = map (appendTo chatId (userMessage c)) (chats (state c))).
  { destruct (memoryUpdate_cases (memory (state c)) nm) as [->|(fact & _ & -> & _)];
      reflexivity. }
  rewrite E, map_map. apply map_ext. intros ch. apply appendTo_twice.
Qed.

Lemma handleSubmit_appends_one_exchange_witness :
  exists m,
    msgRole m = Model
    /\ chats (finalState sampleState (handleSubmit sampleClosure quotaEnv)) =
       [mkChat "chat-1" "New Chat" [userMessage sampleClosure; m]].
Proof.
  destruct (@handleSubmit_appends_one_exchange sampleClosure quotaEnv "chat-1")
    as (m & R & E).
  - constructor; reflexivity.
  - exists m. split; [exact R | exact E].
Defined.

(** The memory set only grows, by at most one fact per turn: after any
    run of the handler, whatever the memory set was, it is the old set, or
    the old set followed by one fact that is not empty, not NO_UPDATE,
    trimmed, and was not in the set.  So a set without duplicates stays
    without duplicates. *)
Theorem handleSubmit_memory_grows_by_one_new_fact :
  forall c env,
    (memory (finalState (state c) (handleSubmit c env)) = memory (state c)
     \/ exists fact,
          memory (finalState (state c) (handleSubmit c env))
          = (memory (state c) ++ [fact])%list
          /\ fact <> EmptyString /\ fact <> "NO_UPDATE" /\ trim fact = fact
          /\ ~ In fact (memory (state c)))
    /\ (NoDup (memory (state c)) ->
        NoDup (memory (finalState (state c) (handleSubmit c env)))).
Proof.
  intros c env.
  assert (S : memory (finalState (state c) (handleSubmit c env)) = memory (state c)
              \/ exists fact,
                   memory (finalState (state c) (handleSubmit c env))
                   = (memory (state c) ++ [fact])%list
                   /\ fact <> EmptyString /\ fact <> "NO_UPDATE" /\ trim fact = fact
                   /\ ~ In fact (memory (state c))).
  { destruct (activeChatId c) as [chatId|] eqn:Ec.
    2:{ left. rewrite handleSubmit_not_submitted; [reflexivity|].
        intros chatId [H _]. congruence. }
    destruct (isEmpty chatId
              || (isEmpty (trim (userInput c))
                  && match attachment c with None => true | Some _ => false end)) eqn:Es.
    { left. rewrite handleSubmit_not_submitted; [reflexivity|].
      intros chatId' [H H']. rewrite Ec in H. injection H as <-. congruence. }
    assert (HS : Submitted c chatId) by now constructor.
    destruct (handleSubmit_updates_shape env HS) as (nm & t & m & Eu & _ & Hf).
    unfold finalState. rewrite Eu. cbn [map snd fold_left]. rewrite map_snd_stamp.
    rewrite fold_left_app. cbn [fold_left applyUpdate memory].
    destruct (memoryUpdate_cases (memory (state c)) nm) as [->|(fact & En & -> & Hn)].
    - now left.
    - right. exists fact. destruct (Hf fact En) as (F1 & F2 & F3). now repeat split. }
  split; [exact S|]. intros ND.
  destruct S as [->|(fact & -> & _ & _ & _ & Hn)]; [exact ND|].
  apply NoDup_app; [exact ND | repeat constructor; intros [] | ].
  intros x Hx [<-|[]]. contradiction.
Qed.

Lemma handleSubmit_memory_grows_by_one_new_fact_witness :
  memory (finalState sampleState (handleSubmit sampleClosure newFactEnv))
  = ["Likes tea"; "Lives in Bandung"; "Studies biology"]
  /\ NoDup (memory (finalState sampleState (handleSubmit sampleClosure newFactEnv))).
Proof.
  split; [reflexivity|].
  apply (proj2 (handleSubmit_memory_grows_by_one_new_fact sampleClosure newFactEnv)).
  repeat constructor; cbn; intuition discriminate.
Defined.

(** ** The stages in time *)

Lemma settleTime_generateContent env now s :
  settleTime (generateContent env now s) = now + latency (gateway env s).
Proof. unfold generateContent. now destruct (result (gateway env s)). Qed.

Lemma lastSettle_base {A : Type} now (ps : list (Settled A)) : now <= lastSettle now ps.
Proof.
  unfold lastSettle. induction ps as [|p ps IH]; cbn [fold_right]; lia.
Qed.

Lemma lastSettle_ge {A : Type} now (ps : list (Settled A)) p :
  In p ps -> settleTime p <= lastSettle now ps.
Proof.
  unfold lastSettle. induction ps as [|q ps IH]; intros H; [destruct H|].
  cbn [fold_right]. destruct H as [->|H]; [lia|]. specialize (IH H). lia.
Qed.

Lemma initial_settles_before_stage2 env j :
  j < 4 -> latency (gateway env (InitialCall j)) <= stage1Done env.
Proof.
  intros Hj. unfold stage1Done.
  rewrite <- (Nat.add_0_l (latency _)), <- settleTime_generateContent.
  apply lastSettle_ge. unfold initialAgentPromises. apply in_map_iff.
  exists j. split; [reflexivity | apply in_seq; lia].
Qed.

Lemma refinement_settles_before_stage3 env now a0 a1 a2 a3 j :
  j < 4 ->
  now + latency (gateway env (RefinementCall j)) <= stage2Done env now [a0; a1; a2; a3].
Proof.
  intros Hj. unfold stage2Done.
  rewrite <- settleTime_generateContent.
  apply lastSettle_ge. unfold refinementAgentPromises. cbn [mapi].
  pattern j. apply lt_four; [exact Hj|..]; cbn [In]; tauto.
Qed.

Lemma answers_of_four env (mk : nat -> CallId) r0 r1 r2 r3 j :
  answers env (mk 0) r0 -> answers env (mk 1) r1 ->
  answers env (mk 2) r2 -> answers env (mk 3) r3 ->
  j < 4 -> exists r, answers env (mk j) r.
Proof.
  intros A0 A1 A2 A3 Hj. pattern j. apply lt_four; [exact Hj|..]; eauto.
Qed.

(** The barriers between the stages: a stage-2 call of a main-pipeline
    turn is issued only when all four stage-1 calls have answered, at least
    1000 ms after the last of them; the stage-3 call only when all four
    stage-2 calls have answered, at least 1000 ms after the last of them. *)
Theorem stages_wait_for_the_whole_previous_stage :
  forall c env chatId fps x,
    MainTurn c env chatId fps ->
    In x (calls (handleSubmit c env)) ->
    (forall i, slot x = RefinementCall i ->
       forall j, j < 4 ->
         (exists r, answers env (InitialCall j) r)
         /\ latency (gateway env (InitialCall j)) + 1000 <= issuedAt x)
    /\ (slot x = SynthesizerCall ->
        forall j, j < 4 ->
          (exists q, answers env (RefinementCall j) q)
          /\ exists y, In y (calls (handleSubmit c env)) /\ slot y = RefinementCall j
                       /\ issuedAt y + latency (gateway env (RefinementCall j)) + 1000
                          <= issuedAt x).
Proof.
  intros c env chatId fps x HM Hx.
  pose proof (@main_calls_In c env chatId fps) as Hin. specialize (fun y => Hin y HM).
  assert (Hs : isStage (slot x) = true ->
               In x (fst (multiAgentPromise c env (buildApiHistory env (activeMessages c chatId))
                            (userPartsForApi c fps))))
    by (intros S; now apply (@main_stage_calls c env chatId fps x HM)).
  remember (multiAgentPromise c env _ _) as run eqn:Erun.
  pose proof (multiAgent_run c env (buildApiHistory env (activeMessages c chatId))
                (userPartsForApi c fps)) as R.
  rewrite <- Erun in R. clear Erun Hx.
  destruct R as [k e Hk F
                |r0 r1 r2 r3 k e B0 B1 B2 B3 Hk F ia s2
                |r0 r1 r2 r3 q0 q1 q2 q3 B0 B1 B2 B3 Q0 Q1 Q2 Q3 ia s2 s3];
    cbn [fst] in *.
  - split.
    + intros i S. exfalso. rewrite S in Hs. specialize (Hs eq_refl).
      apply initialCalls_In in Hs as (n & _ & ->). discriminate.
    + intros S. exfalso. rewrite S in Hs. specialize (Hs eq_refl).
      apply initialCalls_In in Hs as (n & _ & ->). discriminate.
  - split.
    + intros i S j Hj. split; [exact (answers_of_four InitialCall B0 B1 B2 B3 Hj)|].
      rewrite S in Hs. specialize (Hs eq_refl). apply in_app_or in Hs as [H|H].
      * apply initialCalls_In in H as (n & _ & ->). discriminate.
      * subst ia. apply refinementCalls_In in H as (n & a & _ & ->). cbn [issuedAt].
        subst s2. pose proof (initial_settles_before_stage2 env Hj). unfold PACING_DELAY. lia.
    + intros S. exfalso. rewrite S in Hs. specialize (Hs eq_refl).
      apply in_app_or in Hs as [H|H].
      * apply initialCalls_In in H as (n & _ & ->). discriminate.
      * subst ia. apply refinementCalls_In in H as (n & a & _ & ->). discriminate.
  - split.
    + intros i S j Hj. split; [exact (answers_of_four InitialCall B0 B1 B2 B3 Hj)|].
      rewrite S in Hs. specialize (Hs eq_refl).
      apply in_app_or in Hs as [H|H]; [|apply in_app_or in H as [H|H]].
      * apply initialCalls_In in H as (n & _ & ->). discriminate.
      * subst ia. apply refinementCalls_In in H as (n & a & _ & ->). cbn [issuedAt].
        subst s2. pose proof (initial_settles_before_stage2 env Hj). unfold PACING_DELAY. lia.
      * destruct H as [<-|[]]. discriminate.
    + intros S j Hj. split; [exact (answers_of_four RefinementCall Q0 Q1 Q2 Q3 Hj)|].
      rewrite S in Hs. specialize (Hs eq_refl).
      assert (Ex : issuedAt x = s3).
      { apply in_app_or in Hs as [H|H]; [|apply in_app_or in H as [H|H]].
        - apply initialCalls_In in H as (n & _ & E). rewrite E in S. discriminate.
        - subst ia. apply refinementCalls_In in H as (n & a & _ & E).
          rewrite E in S. discriminate.
        - now destruct H as [<-|[]]. }
      exists (mkIssued s2 (RefinementCall j)
                (refinementRequest c (buildApiHistory env (activeMessages c chatId))
                   (textForContext c (userPartsForApi c fps)) ia (nth j ia None) j)).
      split; [|split; [reflexivity|]].
      * apply Hin. apply in_or_app. right. apply in_or_app. left.
        subst ia. revert Hj. clear. intros Hj.
        pattern j. apply lt_four; [exact Hj|..]; cbn; tauto.
      * cbn [issuedAt]. rewrite Ex. subst s3 ia.
        pose proof (@refinement_settles_before_stage3 env s2
                      (text r0) (text r1) (text r2) (text r3) j Hj).
        unfold PACING_DELAY. lia.
Qed.

Lemma stages_wait_for_the_whole_previous_stage_witness :
  latency (gateway sampleEnv (RefinementCall 2)) + 1013 + 1000 <= 2036.
Proof.
  destruct (@stages_wait_for_the_whole_previous_stage sampleClosure sampleEnv "chat-1" []
              sampleSynthesizerCall) as [_ H].
  - constructor; reflexivity.
  - vm_compute. repeat (first [left; reflexivity | right]).
  - destruct (H eq_refl 2 ltac:(lia)) as (_ & y & Hy & Sy & L).
    assert (E : issuedAt y = 1013).
    { vm_compute in Hy.
      repeat (destruct Hy as [<-|Hy]; [first [discriminate | reflexivity]|]).
      destruct Hy. }
    cbn [issuedAt sampleSynthesizerCall] in L. lia.
Defined.

(** ** When all stage calls answer *)

Lemma multiAgent_all_answer c env hist ups r0 r1 r2 r3 q0 q1 q2 q3 :
  answers env (InitialCall 0) r0 -> answers env (InitialCall 1) r1 ->
  answers env (InitialCall 2) r2 -> answers env (InitialCall 3) r3 ->
  answers env (RefinementCall 0) q0 -> answers env (RefinementCall 1) q1 ->
  answers env (RefinementCall 2) q2 -> answers env (RefinementCall 3) q3 ->
  let initialAnswers := [text r0; text r1; text r2; text r3] in
  let start2 := stage1Done env + PACING_DELAY in
  let start3 := stage2Done env start2 initialAnswers + PACING_DELAY in
  multiAgentPromise c env hist ups =
  ((initialCalls c (hist ++ [mkContent User ups])
      ++ refinementCalls c hist (textForContext c ups) start2 initialAnswers
      ++ [mkIssued start3 SynthesizerCall
            (synthesizerRequest c hist (textForContext c ups)
               [text q0; text q1; text q2; text q3])])%list,
   generateContent env start3 SynthesizerCall).
Proof.
  intros A0 A1 A2 A3 B0 B1 B2 B3 initialAnswers start2 start3.
  destruct (multiAgent_run c env hist ups)
    as [j e Hj F
       |r0' r1' r2' r3' j e C0 C1 C2 C3 Hj F ia s2
       |r0' r1' r2' r3' q0' q1' q2' q3' C0 C1 C2 C3 D0 D1 D2 D3 ia s2 s3].
  - exfalso. revert F. pattern j. apply lt_four; [exact Hj|..]; intros F;
      eauto using answers_fails.
  - exfalso. revert F. pattern j. apply lt_four; [exact Hj|..]; intros F;
      eauto using answers_fails.
  - subst ia s2 s3.
    rewrite (answers_inj C0 A0), (answers_inj C1 A1), (answers_inj C2 A2), (answers_inj C3 A3).
    rewrite (answers_inj D0 B0), (answers_inj D1 B1), (answers_inj D2 B2), (answers_inj D3 B3).
    reflexivity.
Qed.

(** The synthesis prompt: when the eight calls of stages 1 and 2 answer,
    the turn issues one stage-3 call.  Its last turn is one user turn with
    one text part: the context text, the internal-context marker, and the
    four refined answers quoted under the labels 1 to 4 in agent order,
    whatever the order in which the calls settled (an answer without text is
    quoted as the word undefined); before it comes the stored history, and
    the system instruction is the synthesizer instruction after the memory
    context. *)
Theorem synthesis_prompt_lists_refined_answers_in_agent_order :
  forall c env chatId fps r0 r1 r2 r3 q0 q1 q2 q3,
    MainTurn c env chatId fps ->
    answers env (InitialCall 0) r0 -> answers env (InitialCall 1) r1 ->
    answers env (InitialCall 2) r2 -> answers env (InitialCall 3) r3 ->
    answers env (RefinementCall 0) q0 -> answers env (RefinementCall 1) q1 ->
    answers env (RefinementCall 2) q2 -> answers env (RefinementCall 3) q3 ->
    let quoted := fun v : option string =>
                    match v with Some s => s | None => "undefined" end in
    let q := String "034"%char EmptyString in
    let n := String "010"%char EmptyString in
    exists now,
      callsOn SynthesizerCall (handleSubmit c env) =
      [mkIssued now SynthesizerCall
         (mkRequest (model c)
            (Turns (List.app (buildApiHistory env (activeMessages c chatId))
                      [mkContent User
                         [TextPart
                            (Some (textForContext c (userPartsForApi c fps)
                                   ++ n ++ n ++ "---INTERNAL CONTEXT---" ++ n
                                   ++ "Here are the four refined responses to the user's query. Your task is to synthesize them into the best single, final answer."
                                   ++ n ++ n ++ "Refined Response 1:" ++ n
                                   ++ q ++ quoted (text q0) ++ q
                                   ++ n ++ n ++ "Refined Response 2:" ++ n
                                   ++ q ++ quoted (text q1) ++ q
                                   ++ n ++ n ++ "Refined Response 3:" ++ n
                                   ++ q ++ quoted (text q2) ++ q
                                   ++ n ++ n ++ "Refined Response 4:" ++ n
                                   ++ q ++ quoted (text q3) ++ q))]]))
            (Some (memoryContext (memory (state c)) ++ SYNTHESIZER_SYSTEM_INSTRUCTION))
            (agentTools c) None)].
Proof.
  intros c env chatId fps r0 r1 r2 r3 q0 q1 q2 q3 HM A0 A1 A2 A3 B0 B1 B2 B3 quoted q n.
  rewrite (@callsOn_main c env chatId fps SynthesizerCall HM eq_refl).
  rewrite (multiAgent_all_answer c (buildApiHistory env (activeMessages c chatId))
             (userPartsForApi c fps) A0 A1 A2 A3 B0 B1 B2 B3).
  cbn [fst]. eexists. reflexivity.
Qed.

Lemma synthesis_prompt_lists_refined_answers_in_agent_order_witness :
  let q := String "034"%char EmptyString in
  let n := String "010"%char EmptyString in
  map request (callsOn SynthesizerCall (handleSubmit sampleClosure sampleEnv)) =
  [mkRequest "gemini-2.5-flash"
     (Turns [mkContent User
               [TextPart
                  (Some ("Explain photosynthesis" ++ n ++ n ++ "---INTERNAL CONTEXT---" ++ n
                         ++ "Here are the four refined responses to the user's query. Your task is to synthesize them into the best single, final answer."
                         ++ n ++ n ++ "Refined Response 1:" ++ n ++ q ++ "b0" ++ q
                         ++ n ++ n ++ "Refined Response 2:" ++ n ++ q ++ "b1" ++ q
                         ++ n ++ n ++ "Refined Response 3:" ++ n ++ q ++ "b2" ++ q
                         ++ n ++ n ++ "Refined Response 4:" ++ n ++ q ++ "b3" ++ q))]])
     (Some ("--- Start User Memory ---" ++ n
            ++ "The user has provided the following information about themselves. Use this to personalize your response:" ++ n
            ++ "- Likes tea" ++ n ++ "- Lives in Bandung" ++ n
            ++ "--- End User Memory ---" ++ n ++ n
            ++ SYNTHESIZER_SYSTEM_INSTRUCTION))
     (Some [GoogleSearch]) None].
Proof.
  intros q n.
  destruct (@synthesis_prompt_lists_refined_answers_in_agent_order
              sampleClosure sampleEnv "chat-1" []
              (mkResponse (Some "a0") None None) (mkResponse (Some "a1") None None)
              (mkResponse (Some "a2") None None) (mkResponse (Some "a3") None None)
              (mkResponse (Some "b0") None None) (mkResponse (Some "b1") None None)
              (mkResponse (Some "b2") None None) (mkResponse (Some "b3") None None))
    as (now & E); [constructor; reflexivity | reflexivity .. | ].
  rewrite E. reflexivity.
Defined.

(** A complete run: when all nine stage calls answer, the stage calls of
    the turn are the four initial calls, the four refinement calls and the
    synthesizer call, in this order; after the user's message the turn
    applies the memory update (if any) and then the assistant message,
    whose text and grounding citations are those of the synthesizer's
    response alone: what the stage-1 and stage-2 responses carry besides
    their text is dropped. *)
Theorem complete_run_answers_with_the_synthesis :
  forall c env chatId fps r0 r1 r2 r3 q0 q1 q2 q3 final,
    MainTurn c env chatId fps ->
    answers env (InitialCall 0) r0 -> answers env (InitialCall 1) r1 ->
    answers env (InitialCall 2) r2 -> answers env (InitialCall 3) r3 ->
    answers env (RefinementCall 0) q0 -> answers env (RefinementCall 1) q1 ->
    answers env (RefinementCall 2) q2 -> answers env (RefinementCall 3) q3 ->
    answers env SynthesizerCall final ->
    map slot (filter (fun x => isStage (slot x)) (calls (handleSubmit c env))) =
    [InitialCall 0; InitialCall 1; InitialCall 2; InitialCall 3;
     RefinementCall 0; RefinementCall 1; RefinementCall 2; RefinementCall 3;
     SynthesizerCall]
    /\ exists t newMemory,
         2000 <= t
         /\ updates (handleSubmit c env) =
            (0, AppendMessage chatId (userMessage c))
              :: stamp t
                   (memoryUpdate (memory (state c)) newMemory
                    ++ [AppendMessage chatId
                          (mkMessage Model [TextPart (text final)] None
                             (Some (truthy newMemory)) None
                             (groundingMetadataChunks final))])%list.
Proof.
  intros c env chatId fps r0 r1 r2 r3 q0 q1 q2 q3 final HM A0 A1 A2 A3 B0 B1 B2 B3 S.
  set (hist := buildApiHistory env (activeMessages c chatId)).
  pose proof (multiAgent_all_answer c hist (userPartsForApi c fps)
                A0 A1 A2 A3 B0 B1 B2 B3) as E. cbv zeta in E.
  split.
  - rewrite (@filter_main c env chatId fps isStage HM eq_refl eq_refl).
    fold hist. rewrite E. reflexivity.
  - destruct (memoryPromise_settles c env hist) as (tm & nm & Em).
    set (start3 := stage2Done env (stage1Done env + PACING_DELAY)
                     [text r0; text r1; text r2; text r3] + PACING_DELAY) in *.
    assert (Ep : snd (multiAgentPromise c env hist (userPartsForApi c fps))
                 = Fulfilled (start3 + latency (gateway env SynthesizerCall)) final).
    { rewrite E. cbn [snd]. unfold generateContent. unfold answers in S. now rewrite S. }
    destruct (mainPipeline_fulfilled _ _ _ _ Em Ep) as (Eu & _ & _).
    exists (Nat.max tm (start3 + latency (gateway env SynthesizerCall))), nm.
    split.
    + pose proof (lastSettle_base (stage1Done env + PACING_DELAY)
                    (refinementAgentPromises env (stage1Done env + PACING_DELAY)
                       [text r0; text r1; text r2; text r3])) as L.
      fold (stage2Done env (stage1Done env + PACING_DELAY)
              [text r0; text r1; text r2; text r3]) in L.
      unfold start3, PACING_DELAY in *. lia.
    + rewrite (main_updates HM). fold hist. now rewrite Eu.
Qed.

Lemma complete_run_answers_with_the_synthesis_witness :
  exists t m,
    2000 <= t /\ msgParts m = [TextPart (Some "final")]
    /\ In (t, AppendMessage "chat-1" m) (updates (handleSubmit sampleClosure sampleEnv)).
Proof.
  destruct (@complete_run_answers_with_the_synthesis sampleClosure sampleEnv "chat-1" []
              (mkResponse (Some "a0") None None) (mkResponse (Some "a1") None None)
              (mkResponse (Some "a2") None None) (mkResponse (Some "a3") None None)
              (mkResponse (Some "b0") None None) (mkResponse (Some "b1") None None)
              (mkResponse (Some "b2") None None) (mkResponse (Some "b3") None None)
              (mkResponse (Some "final") None None))
    as (_ & t & nm & L & E); [constructor; reflexivity | reflexivity .. | ].
  eexists t, _. split; [exact L|]. split; [|rewrite E; right; unfold stamp;
    rewrite map_app; apply in_or_app; right; left; reflexivity].
  reflexivity.
Defined.

(** ** What the stage calls send *)

Lemma join_two (a b : string) : join nl [a; b] = a ++ nl ++ b.
Proof. reflexivity. Qed.

(** The current turn in the three stages: a stage-1 call sends the stored
    history followed by the user's turn with its parts, the attachment's
    data included; a stage-2 or stage-3 call sends the stored history
    followed by one turn with a single text part, which starts with the
    user's text for context and the internal-context marker.  In that text
    an attachment appears as a label with its name only, followed on the
    next line by the user's text when there is any. *)
Theorem later_stages_get_the_attachment_as_a_label :
  forall c env chatId fps x,
    MainTurn c env chatId fps ->
    In x (calls (handleSubmit c env)) -> isStage (slot x) = true ->
    let hist := buildApiHistory env (activeMessages c chatId) in
    (isInitial (slot x) = true ->
     contents (request x) = Turns (hist ++ [mkContent User (userPartsForApi c fps)]))
    /\ (isInitial (slot x) = false ->
        exists rest,
          contents (request x) =
          Turns (hist ++ [mkContent User
                            [TextPart (Some (textForContext c (userPartsForApi c fps)
                                             ++ nl ++ nl ++ "---INTERNAL CONTEXT---" ++ nl
                                             ++ rest))]]))
    /\ (forall f mime data,
          attachment c = Some f -> fps = [InlineData mime data] ->
          isEmpty (trim (userInput c)) = false ->
          textForContext c (userPartsForApi c fps) =
          ("[Attachment: " ++ (if isEmpty (name f) then "file" else name f) ++ "]")
          ++ nl ++ trim (userInput c))
    /\ (forall f mime data,
          attachment c = Some f -> fps = [InlineData mime data] ->
          isEmpty (trim (userInput c)) = true ->
          textForContext c (userPartsForApi c fps) =
          "[Attachment: " ++ (if isEmpty (name f) then "file" else name f) ++ "]").
Proof.
  intros c env chatId fps x HM Hx Sx hist.
  apply (@main_stage_calls c env chatId fps x HM) in Hx; [|exact Sx]. fold hist in Hx.
  split; [|split; [|split]].
  - intros I.
    destruct (multiAgent_run c env hist (userPartsForApi c fps))
      as [j e Hj F
         |r0 r1 r2 r3 j e B0 B1 B2 B3 Hj F ia s2
         |r0 r1 r2 r3 q0 q1 q2 q3 B0 B1 B2 B3 Q0 Q1 Q2 Q3 ia s2 s3];
      cbn [fst] in Hx.
    + apply initialCalls_In in Hx as (i & _ & ->). reflexivity.
    + apply in_app_or in Hx as [H|H].
      * apply initialCalls_In in H as (i & _ & ->). reflexivity.
      * subst ia. apply refinementCalls_In in H as (i & a & _ & ->). discriminate.
    + apply in_app_or in Hx as [H|H]; [|apply in_app_or in H as [H|H]].
      * apply initialCalls_In in H as (i & _ & ->). reflexivity.
      * subst ia. apply refinementCalls_In in H as (i & a & _ & ->). discriminate.
      * destruct H as [<-|[]]. discriminate.
  - intros I.
    destruct (multiAgent_run c env hist (userPartsForApi c fps))
      as [j e Hj F
         |r0 r1 r2 r3 j e B0 B1 B2 B3 Hj F ia s2
         |r0 r1 r2 r3 q0 q1 q2 q3 B0 B1 B2 B3 Q0 Q1 Q2 Q3 ia s2 s3];
      cbn [fst] in Hx.
    + apply initialCalls_In in Hx as (i & _ & ->). discriminate.
    + apply in_app_or in Hx as [H|H].
      * apply initialCalls_In in H as (i & _ & ->). discriminate.
      * subst ia. apply refinementCalls_In in H as (i & a & _ & ->).
        eexists. reflexivity.
    + apply in_app_or in Hx as [H|H]; [|apply in_app_or in H as [H|H]].
      * apply initialCalls_In in H as (i & _ & ->). discriminate.
      * subst ia. apply refinementCalls_In in H as (i & a & _ & ->).
        eexists. reflexivity.
      * destruct H as [<-|[]]. eexists. reflexivity.
  - intros f mime data Ha -> Ht.
    unfold textForContext, userPartsForApi, attachmentLabel. rewrite Ha, Ht.
    cbn [app map joinItem]. apply join_two.
  - intros f mime data Ha -> Ht.
    unfold textForContext, userPartsForApi, attachmentLabel. rewrite Ha, Ht.
    reflexivity.
Qed.

Lemma later_stages_get_the_attachment_as_a_label_witness :
  textForContext leafClosure
    (userPartsForApi leafClosure [InlineData "image/png" "iVBORw0KGgo="])
  = "[Attachment: leaf.png]" ++ nl ++ "What plant is this?".
Proof.
  destruct (@later_stages_get_the_attachment_as_a_label leafClosure attachmentEnv "chat-1"
              [InlineData "image/png" "iVBORw0KGgo="]
              (mkIssued 0 (InitialCall 0)
                 (initialRequest leafClosure
                    [mkContent User
                       (userPartsForApi leafClosure [InlineData "image/png" "iVBORw0KGgo="])])))
    as (_ & _ & H & _).
  - constructor; reflexivity.
  - vm_compute. repeat (first [left; reflexivity | right]).
  - reflexivity.
  - apply (H sampleFile "image/png" "iVBORw0KGgo="); reflexivity.
Defined.

(** ** The memory flag of the answer *)

Lemma memoryPromise_proposal c env hist r t :
  isEmpty (trim (userInput c)) = false ->
  answers env MemoryCall r -> text r = Some t ->
  trim t <> EmptyString -> trim t <> "NO_UPDATE" ->
  snd (memoryPromise c env hist)
  = Fulfilled (latency (gateway env MemoryCall)) (Some (trim t)).
Proof.
  intros Hu A T N1 N2. unfold memoryPromise. rewrite Hu. cbn [snd].
  unfold generateContent. unfold answers in A. rewrite A, T. cbn [settleTime Nat.add].
  apply String.eqb_neq in N2. rewrite N2.
  destruct (trim t); [contradiction | reflexivity].
Qed.

(** The flag [memoryUpdated] of the answer tells that the memory task
    proposed a fact, not that the memory set changed: when the proposed
    fact is already in the set, a complete run appends the answer flagged
    as a memory update and performs no memory update. *)
Theorem memoryUpdated_flags_known_facts_too :
  forall c env chatId fps r0 r1 r2 r3 q0 q1 q2 q3 final r t,
    MainTurn c env chatId fps ->
    answers env (InitialCall 0) r0 -> answers env (InitialCall 1) r1 ->
    answers env (InitialCall 2) r2 -> answers env (InitialCall 3) r3 ->
    answers env (RefinementCall 0) q0 -> answers env (RefinementCall 1) q1 ->
    answers env (RefinementCall 2) q2 -> answers env (RefinementCall 3) q3 ->
    answers env SynthesizerCall final ->
    isEmpty (trim (userInput c)) = false ->
    answers env MemoryCall r -> text r = Some t ->
    trim t <> EmptyString -> trim t <> "NO_UPDATE" ->
    In (trim t) (memory (state c)) ->
    exists time,
      updates (handleSubmit c env) =
      [(0, AppendMessage chatId (userMessage c));
       (time, AppendMessage chatId
                (mkMessage Model [TextPart (text final)] None (Some true) None
                   (groundingMetadataChunks final)))].
Proof.
  intros c env chatId fps r0 r1 r2 r3 q0 q1 q2 q3 final r t
         HM A0 A1 A2 A3 B0 B1 B2 B3 S Hu Am T N1 N2 Hin.
  set (hist := buildApiHistory env (activeMessages c chatId)).
  pose proof (multiAgent_all_answer c hist (userPartsForApi c fps)
                A0 A1 A2 A3 B0 B1 B2 B3) as E. cbv zeta in E.
  pose proof (memoryPromise_proposal c hist Hu Am T N1 N2) as Em.
  assert (Ep : exists tp, snd (multiAgentPromise c env hist (userPartsForApi c fps))
                          = Fulfilled tp final).
  { rewrite E. cbn [snd]. unfold generateContent. unfold answers in S. rewrite S. eauto. }
  destruct Ep as (tp & Ep).
  destruct (mainPipeline_fulfilled _ _ _ _ Em Ep) as (Eu & _ & _).
  exists (Nat.max (latency (gateway env MemoryCall)) tp).
  rewrite (main_updates HM). fold hist. rewrite Eu.
  rewrite memoryUpdate_known by (intros f [= <-]; exact Hin).
  cbn [app stamp map]. unfold truthy, falsy.
  destruct (trim t); [contradiction | reflexivity].
Qed.

Lemma memoryUpdated_flags_known_facts_too_witness :
  exists time,
    updates (handleSubmit sampleClosure knownFactEnv) =
    [(0, AppendMessage "chat-1" (userMessage sampleClosure));
     (time, AppendMessage "chat-1"
              (mkMessage Model [TextPart (Some "final")] None (Some true) None None))].
Proof.
  apply (@memoryUpdated_flags_known_facts_too sampleClosure knownFactEnv "chat-1" []
           (mkResponse (Some "a0") None None) (mkResponse (Some "a1") None None)
           (mkResponse (Some "a2") None None) (mkResponse (Some "a3") None None)
           (mkResponse (Some "b0") None None) (mkResponse (Some "b1") None None)
           (mkResponse (Some "b2") None None) (mkResponse (Some "b3") None None)
           (mkResponse (Some "final") None None)
           (mkResponse (Some " Likes tea ") None None) " Likes tea ");
    try reflexivity.
  - constructor; reflexivity.
  - discriminate.
  - discriminate.
  - left. reflexivity.
Defined.

(** ** The number of calls *)

Lemma multiAgent_calls_length c env hist ups :
  length (fst (multiAgentPromise c env hist ups)) <= 9.
Proof.
  destruct (multiAgent_run c env hist ups)
    as [j e Hj F
       |r0 r1 r2 r3 j e B0 B1 B2 B3 Hj F ia s2
       |r0 r1 r2 r3 q0 q1 q2 q3 B0 B1 B2 B3 Q0 Q1 Q2 Q3 ia s2 s3];
    cbn [fst]; try subst ia; rewrite ?length_app; cbn [length initialCalls refinementCalls
      mapi map seq]; lia.
Qed.

Lemma titleCalls_length c env chatId : length (titleCalls c env chatId) <= 1.
Proof.
  unfold titleCalls, generateTitle.
  destruct (isFirstMessage c chatId); [|cbn; lia].
  destruct (falsy (finalApiKey c env)); cbn; lia.
Qed.

(** The call budget of a turn: no run of the handler issues more than
    eleven Gateway calls (title, memory, and nine stage calls), and under
    the image model no more than two (title and image call). *)
Theorem handleSubmit_call_budget :
  forall c env,
    length (calls (handleSubmit c env)) <= 11
    /\ (model c = IMAGE_MODEL -> length (calls (handleSubmit c env)) <= 2).
Proof.
  intros c env.
  assert (G : length (calls (handleSubmit c env)) <= 11
              /\ ((model c =? IMAGE_MODEL) = true ->
                  length (calls (handleSubmit c env)) <= 2)).
  { unfold handleSubmit.
    destruct (activeChatId c) as [chatId|]; [|cbn; split; intros; lia].
    destruct (_ || _); [cbn; split; intros; lia|].
    unfold prepend. cbn [calls]. rewrite length_app.
    pose proof (titleCalls_length c env chatId) as Lt.
    destruct (falsy (finalApiKey c env)); [cbn; split; intros; lia|].
    destruct (fileParts c env) as [fps|]; [|cbn; split; intros; lia].
    destruct (model c =? IMAGE_MODEL).
    - unfold bypass. cbn [calls length]. split; intros; lia.
    - rewrite mainPipeline_calls, length_app.
      pose proof (multiAgent_calls_length c env
                    (buildApiHistory env (activeMessages c chatId))
                    (userPartsForApi c fps)) as La.
      assert (Lm : length (fst (memoryPromise c env
                                  (buildApiHistory env (activeMessages c chatId)))) <= 1).
      { unfold memoryPromise. destruct (isEmpty (trim (userInput c))); cbn; lia. }
      split; [lia | discriminate]. }
  destruct G as [G1 G2]. split; [exact G1|].
  intros M. apply G2. rewrite M. apply String.eqb_refl.
Qed.

Lemma handleSubmit_call_budget_witness :
  length (calls (handleSubmit imageClosure sampleEnv)) <= 2.
Proof.
  apply (@handleSubmit_call_budget imageClosure sampleEnv). reflexivity.
Defined.

(** ** The conversation builder *)

Lemma buildApiHistory_plain env msgs :
  (forall m f, In m msgs -> msgRole m = User -> file m = Some f -> readFile env f = None) ->
  buildApiHistory env msgs = map (fun m => mkContent (msgRole m) (msgParts m)) msgs.
Proof.
  intros H. apply map_ext_in. intros m Hm.
  destruct (msgRole m) eqn:R, (file m) as [f|] eqn:F; try reflexivity.
  unfold fileToGenerativePart. now rewrite (H m f Hm R F).
Qed.

(** [buildApiHistory] keeps every stored message as one turn, with its role
    and in order; a turn consists of the message's own parts, preceded by
    at most one part for its file; and when no file of a user message can
    be read (or there is none, as after a reload), the turns are exactly the
    stored roles and parts. *)
Theorem buildApiHistory_keeps_every_message :
  forall env msgs,
    map role (buildApiHistory env msgs) = map msgRole msgs
    /\ Forall2 (fun m turn =>
                  exists pre, parts turn = (pre ++ msgParts m)%list /\ length pre <= 1)
               msgs (buildApiHistory env msgs)
    /\ ((forall m f, In m msgs -> msgRole m = User -> file m = Some f ->
                     readFile env f = None) ->
        buildApiHistory env msgs = map (fun m => mkContent (msgRole m) (msgParts m)) msgs).
Proof.
  intros env msgs. unfold buildApiHistory. split; [|split].
  - rewrite map_map. apply map_ext. intros m.
    destruct (msgRole m), (file m) as [f|]; try reflexivity.
    now destruct (fileToGenerativePart env f).
  - induction msgs as [|m msgs IH]; cbn [map]; constructor; [|exact IH].
    destruct (msgRole m), (file m) as [f|];
      try (exists []; split; [reflexivity | cbn; lia]).
    destruct (fileToGenerativePart env f) as [p|].
    + exists [p]. split; [reflexivity | cbn; lia].
    + exists []. split; [reflexivity | cbn; lia].
  - apply buildApiHistory_plain.
Qed.

Lemma buildApiHistory_keeps_every_message_witness :
  buildApiHistory sampleEnv [sampleMessage] = [mkContent User [TextPart (Some "hello")]].
Proof.
  apply (proj2 (proj2 (buildApiHistory_keeps_every_message sampleEnv [sampleMessage]))).
  intros m f [<-|[]] _ _. reflexivity.
Defined.

(** ** The chat list *)

Lemma isId_self x : App.isId (Some x) x = true.
Proof. apply String.eqb_refl. Qed.

Lemma isId_eq v x : App.isId v x = true -> v = Some x.
Proof.
  destruct v as [y|]; [|discriminate]. cbn [App.isId].
  intros H. apply String.eqb_eq in H. now subst.
Qed.

(** [handleNewChat] always lands on an empty chat of the list, reuses an
    empty chat when there is one (the list is then unchanged) and adds a new
    chat in front otherwise; calling it again changes nothing. *)
Theorem handleNewChat_reuses_the_empty_chat :
  forall s now later,
    App.onEmptyChat (App.handleNewChat s now)
    /\ App.handleNewChat (App.handleNewChat s now) later = App.handleNewChat s now
    /\ ((exists ch, In ch (App.chats s) /\ messages ch = []) ->
        App.chats (App.handleNewChat s now) = App.chats s)
    /\ ((forall ch, In ch (App.chats s) -> messages ch <> []) ->
        App.chats (App.handleNewChat s now) = App.newChat now :: App.chats s).
Proof.
  intros s now later. unfold App.handleNewChat.
  destruct (find App.isEmptyChat (App.chats s)) as [e|] eqn:F.
  - destruct (find_some _ _ F) as [He Ee].
    assert (Me : messages e = []).
    { unfold App.isEmptyChat in Ee. now destruct (messages e). }
    destruct (App.isId (App.activeChatId s) (id e)) eqn:I.
    + repeat split.
      * exists e. repeat split; [exact He | now apply isId_eq | exact Me].
      * now rewrite F, I.
      * intros H. exfalso. exact (H e He Me).
    + cbn [App.chats App.activeChatId]. repeat split.
      * exists e. now repeat split.
      * now rewrite F, isId_self.
      * intros H. exfalso. exact (H e He Me).
  - cbn [App.chats App.activeChatId find App.isEmptyChat App.newChat messages id].
    rewrite isId_self. repeat split.
    + exists (App.newChat now). repeat split. now left.
    + intros (ch & Hc & Mc). exfalso.
      apply (find_none _ _ F) in Hc. unfold App.isEmptyChat in Hc.
      rewrite Mc in Hc. discriminate.
Qed.

Lemma handleNewChat_reuses_the_empty_chat_witness :
  App.chats (App.handleNewChat sampleList "1700000000003")
  = App.newChat "1700000000003" :: App.chats sampleList.
Proof.
  apply (handleNewChat_reuses_the_empty_chat sampleList "1700000000003" "1700000000004").
  intros ch [<-|[<-|[]]]; discriminate.
Defined.

(** Deleting the chat marked for deletion: the list is never left empty,
    the mark is cleared, every other chat is kept, a chat with the deleted
    id remains only if it is the fresh chat (created when the list would be
    empty or the active chat was deleted), and an active id that named a
    chat of the list still does. *)
Theorem handleDeleteChat_keeps_the_list_usable :
  forall s now doomed,
    App.chatToDelete s = Some doomed -> doomed <> EmptyString ->
    let s' := App.handleDeleteChat s now in
    App.chats s' <> []
    /\ App.chatToDelete s' = None
    /\ (exists pre, App.chats s' =
                    (pre ++ filter (fun ch => negb (id ch =? doomed)) (App.chats s))%list
                    /\ (pre = [] \/ pre = [App.newChat now]))
    /\ (forall ch, In ch (App.chats s') -> id ch = doomed -> ch = App.newChat now)
    /\ (App.activeListed s -> App.activeListed s')
    /\ (App.activeChatId s = Some doomed -> App.onEmptyChat s').
Proof.
  intros s now doomed Hd Hne s'. subst s'. unfold App.handleDeleteChat. rewrite Hd.
  destruct (isEmpty doomed) eqn:E; [destruct doomed; [contradiction | discriminate]|].
  assert (Gone : forall ch, In ch (filter (fun ch => negb (id ch =? doomed)) (App.chats s)) ->
                            id ch <> doomed).
  { intros ch H. apply filter_In in H as [_ H]. apply negb_true_iff in H.
    now apply String.eqb_neq. }
  destruct (filter (fun ch => negb (id ch =? doomed)) (App.chats s)) as [|r rs] eqn:F.
  - cbn [App.chats App.chatToDelete App.activeChatId]. repeat split.
    + discriminate.
    + exists [App.newChat now]. split; [reflexivity | now right].
    + intros ch [<-|[]] _. reflexivity.
    + intros _. exists (App.newChat now). split; [now left | reflexivity].
    + intros _. exists (App.newChat now). repeat split. now left.
  - destruct (App.isId (App.activeChatId s) doomed) eqn:I;
      cbn [App.chats App.chatToDelete App.activeChatId]; repeat split.
    + discriminate.
    + exists [App.newChat now]. split; [reflexivity | now right].
    + intros ch [<-|H] Eid; [reflexivity|]. elim (Gone ch H Eid).
    + intros _. exists (App.newChat now). split; [now left | reflexivity].
    + intros _. exists (App.newChat now). repeat split. now left.
    + discriminate.
    + exists []. split; [reflexivity | now left].
    + intros ch H Eid. elim (Gone ch H Eid).
    + intros (ch & Hc & Ha). exists ch. split; [|exact Ha].
      rewrite <- F. apply filter_In. split; [exact Hc|].
      rewrite Ha in I. cbn [App.isId] in I. now rewrite I.
    + intros Ha. rewrite Ha, isId_self in I. discriminate.
Qed.

Lemma handleDeleteChat_keeps_the_list_usable_witness :
  App.onEmptyChat (App.handleDeleteChat sampleList "1700000000003").
Proof.
  apply (@handleDeleteChat_keeps_the_list_usable sampleList "1700000000003" "1700000000002").
  - reflexivity.
  - discriminate.
  - reflexivity.
Defined.

Lemma setTitle_ids chatId t cs : map id (setTitle chatId t cs) = map id cs.
Proof.
  unfold setTitle. rewrite map_map. apply map_ext. intros ch.
  now destruct (id ch =? chatId).
Qed.

Lemma setTitle_messages chatId t cs : map messages (setTitle chatId t cs) = map messages cs.
Proof.
  unfold setTitle. rewrite map_map. apply map_ext. intros ch.
  now destruct (id ch =? chatId).
Qed.

Lemma setTitle_In chatId t cs ch' :
  In ch' (setTitle chatId t cs) ->
  (In ch' cs /\ id ch' <> chatId) \/ (id ch' = chatId /\ title ch' = t).
Proof.
  unfold setTitle. intros H. apply in_map_iff in H as (ch & <- & Hc).
  destruct (id ch =? chatId) eqn:E.
  - right. apply String.eqb_eq in E. now split.
  - left. apply String.eqb_neq in E. now split.
Qed.

(** Renaming a chat: saving a title never touches ids, messages or the
    active chat and always ends the editing; a blank title leaves the chats
    as they are; otherwise the chats with the given id, and only they, get
    the typed title without the white space around it. *)
Theorem handleSaveTitle_renames_only_the_title :
  forall s chatId,
    let s' := App.handleSaveTitle s chatId in
    App.editingChatId s' = None /\ App.tempTitle s' = EmptyString
    /\ App.activeChatId s' = App.activeChatId s
    /\ map id (App.chats s') = map id (App.chats s)
    /\ map messages (App.chats s') = map messages (App.chats s)
    /\ (allWs (App.tempTitle s) = true -> App.chats s' = App.chats s)
    /\ (allWs (App.tempTitle s) = false ->
        forall ch', In ch' (App.chats s') ->
          (In ch' (App.chats s) /\ id ch' <> chatId)
          \/ (id ch' = chatId /\ title ch' = trim (App.tempTitle s)
              /\ title ch' <> EmptyString /\ trim (title ch') = title ch')).
Proof.
  intros s chatId s'. subst s'. unfold App.handleSaveTitle, App.handleCancelEditing.
  destruct (isEmpty (trim (App.tempTitle s))) eqn:E;
    cbn [App.chats App.activeChatId App.editingChatId App.tempTitle].
  - repeat split. intros W. apply trim_empty_iff in E. congruence.
  - repeat split.
    + apply setTitle_ids.
    + apply setTitle_messages.
    + intros W. apply trim_empty_iff in W. congruence.
    + intros _ ch' H. apply setTitle_In in H as [H|[H1 H2]]; [now left|].
      right. repeat split; try assumption.
      * rewrite H2. intros Z. rewrite Z in E. discriminate.
      * rewrite H2. apply trim_idem.
Qed.

Lemma handleSaveTitle_renames_only_the_title_witness :
  map title (App.chats (App.handleSaveTitle sampleList "1700000000001"))
  = ["Trip"; "Dinner ideas"].
Proof.
  destruct (handleSaveTitle_renames_only_the_title sampleList "1700000000001")
    as (_ & _ & _ & _ & _ & _ & H).
  assert (W : allWs (App.tempTitle sampleList) = false) by reflexivity.
  specialize (H W (mkChat "1700000000001" "Dinner ideas" [modelMessage [TextPart (Some "hi")]])).
  destruct H as [[_ N]|(_ & _ & _ & _)].
  - right. left. reflexivity.
  - elim N. reflexivity.
  - reflexivity.
Defined.

Lemma stripFiles_no_file ch m : In m (messages (App.stripFiles ch)) -> file m = None.
Proof.
  unfold App.stripFiles. cbn [messages]. intros H.
  apply in_map_iff in H as (m0 & <- & _). reflexivity.
Qed.

(** Start-up: whatever history is stored, the application starts on an
    empty chat of the list (a stored empty chat, or a new one put in front);
    the stored chats are all there, in order, without their files; so the
    history sent to the Gateway for a restored chat is exactly its stored
    roles and parts, with no attachment data. *)
Theorem restoreChats_starts_on_an_empty_chat :
  forall savedChats now,
    let s := App.restoreChats savedChats now in
    App.onEmptyChat s
    /\ (forall ch m, In ch (App.chats s) -> In m (messages ch) -> file m = None)
    /\ (forall stored, savedChats = Some stored ->
          exists pre, App.chats s = (pre ++ map App.stripFiles stored)%list
                      /\ (pre = [] \/ pre = [App.newChat now]))
    /\ (forall env ch, In ch (App.chats s) ->
          buildApiHistory env (messages ch)
          = map (fun m => mkContent (msgRole m) (msgParts m)) (messages ch)).
Proof.
  intros savedChats now s.
  assert (NF : forall ch m, In ch (App.chats s) -> In m (messages ch) -> file m = None).
  { subst s. unfold App.restoreChats. destruct savedChats as [stored|].
    - destruct (find App.isEmptyChat (map App.stripFiles stored)) as [e|];
        cbn [App.chats]; intros ch m Hc Hm.
      + apply in_map_iff in Hc as (ch0 & <- & _). now apply stripFiles_no_file in Hm.
      + destruct Hc as [<-|Hc]; [destruct Hm|].
        apply in_map_iff in Hc as (ch0 & <- & _). now apply stripFiles_no_file in Hm.
    - cbn. intros ch m [<-|[]] []. }
  split; [|split; [exact NF|split]].
  - subst s. unfold App.restoreChats. destruct savedChats as [stored|].
    + destruct (find App.isEmptyChat (map App.stripFiles stored)) as [e|] eqn:F.
      * destruct (find_some _ _ F) as [He Ee]. exists e. repeat split; [exact He|].
        unfold App.isEmptyChat in Ee. now destruct (messages e).
      * exists (App.newChat now). repeat split. now left.
    + exists (App.newChat now). repeat split. now left.
  - intros stored ->. subst s. unfold App.restoreChats.
    destruct (find App.isEmptyChat (map App.stripFiles stored)) as [e|]; cbn [App.chats].
    + exists []. split; [reflexivity | now left].
    + exists [App.newChat now]. split; [reflexivity | now right].
  - intros env ch Hc.
    apply buildApiHistory_plain.
    intros m f Hm _ Hf. rewrite (NF ch m Hc Hm) in Hf. discriminate.
Qed.

Lemma restoreChats_starts_on_an_empty_chat_witness :
  exists pre,
    App.chats (App.restoreChats (Some (App.chats sampleList)) "1700000000003")
    = (pre ++ map App.stripFiles (App.chats sampleList))%list.
Proof.
  destruct (restoreChats_starts_on_an_empty_chat (Some (App.chats sampleList)) "1700000000003")
    as (_ & _ & H & _).
  destruct (H (App.chats sampleList) eq_refl) as (pre & E & _).
  now exists pre.
Defined.

(** ** The generated title *)

Lemma hasChar_removeChar c s : hasChar c (removeChar c s) = false.
Proof.
  induction s as [|a r IH]; [reflexivity|].
  cbn [removeChar]. destruct (Ascii.eqb a c) eqn:E; [exact IH|].
  cbn [hasChar]. now rewrite E, IH.
Qed.

(** Title generation touches titles only: it never changes an id or a
    message; a chat it changes has the given id and a title without any
    double quote; and when there is no API key, the call rejects, or the
    response has no text, the chats stay as they are. *)
Theorem generateTitle_changes_only_the_title :
  forall c env chatId cs,
    let cs' := generateTitleChats c env chatId cs in
    map id cs' = map id cs
    /\ map messages cs' = map messages cs
    /\ (forall ch', In ch' cs' ->
          In ch' cs \/ (id ch' = chatId /\ hasChar "034"%char (title ch') = false))
    /\ (falsy (finalApiKey c env) = true
        \/ (exists e, fails env TitleCall e)
        \/ (exists r, answers env TitleCall r /\ text r = None) ->
        cs' = cs).
Proof.
  intros c env chatId cs cs'. subst cs'. unfold generateTitleChats, generatedTitle.
  destruct (falsy (finalApiKey c env)) eqn:K; [now repeat split; auto|].
  destruct (result (gateway env TitleCall)) as [r|e] eqn:R.
  2:{ repeat split; auto. }
  destruct (text r) as [t|] eqn:T; [|now repeat split; auto].
  repeat split.
  - apply setTitle_ids.
  - apply setTitle_messages.
  - intros ch' H. apply setTitle_In in H as [[H _]|[H1 H2]]; [now left|].
    right. split; [exact H1|]. rewrite H2. apply hasChar_removeChar.
  - intros [H|[(e & H)|(r' & H & H')]].
    + discriminate.
    + unfold fails in H. congruence.
    + unfold answers in H. rewrite R in H. injection H as <-. congruence.
Qed.

Lemma generateTitle_changes_only_the_title_witness :
  generateTitleChats sampleClosure
    (withReply sampleEnv TitleCall (failure 40 "503 UNAVAILABLE")) "chat-1"
    (chats sampleState)
  = chats sampleState.
Proof.
  apply (generateTitle_changes_only_the_title sampleClosure
           (withReply sampleEnv TitleCall (failure 40 "503 UNAVAILABLE")) "chat-1"
           (chats sampleState)).
  right. left. exists (JsError "503 UNAVAILABLE"). reflexivity.
Defined.

(** ** Drag and drop *)

Lemma enters_counter flags s :
  Drag.dragCounter (Drag.enters flags s)
  = (Drag.dragCounter s + Z.of_nat (length flags))%Z
  /\ Drag.attachment (Drag.enters flags s) = Drag.attachment s.
Proof.
  unfold Drag.enters. revert s. induction flags as [|f flags IH]; intros s.
  - cbn [fold_left length]. split; [lia | reflexivity].
  - cbn [fold_left]. destruct (IH (Drag.handleDragEnter f s)) as [E A].
    rewrite E, A. cbn [Drag.handleDragEnter Drag.dragCounter Drag.attachment length].
    split; [lia | reflexivity].
Qed.

Lemma leaves_to_zero n : forall s,
  Drag.dragCounter s = Z.of_nat (S n) ->
  Drag.dragCounter (Drag.leaves (S n) s) = 0%Z
  /\ Drag.isDragging (Drag.leaves (S n) s) = false
  /\ Drag.attachment (Drag.leaves (S n) s) = Drag.attachment s.
Proof.
  unfold Drag.leaves.
  assert (G : forall k s,
             Drag.dragCounter (Nat.iter k Drag.handleDragLeave s)
             = (Drag.dragCounter s - Z.of_nat k)%Z
             /\ Drag.attachment (Nat.iter k Drag.handleDragLeave s) = Drag.attachment s).
  { induction k as [|k IH]; intros s.
    - cbn [Nat.iter nat_rect]. split; [lia | reflexivity].
    - change (Nat.iter (S k) Drag.handleDragLeave s)
        with (Drag.handleDragLeave (Nat.iter k Drag.handleDragLeave s)).
      destruct (IH s) as [E A].
      cbn [Drag.handleDragLeave Drag.dragCounter Drag.attachment]. rewrite E, A.
      split; [lia | reflexivity]. }
  intros s H.
  change (Nat.iter (S n) Drag.handleDragLeave s)
    with (Drag.handleDragLeave (Nat.iter n Drag.handleDragLeave s)).
  destruct (G n s) as [E A].
  cbn [Drag.handleDragLeave Drag.dragCounter Drag.isDragging Drag.attachment].
  rewrite E, A, H.
  replace (Z.of_nat (S n) - Z.of_nat n - 1)%Z with 0%Z by lia.
  now repeat split.
Qed.

(** The drag overlay goes away: a drag that starts with the counter at
    zero, enters any number (at least one) of nested elements and leaves
    them all ends with the counter at zero and the overlay hidden, the
    attachment untouched; and a drop always hides the overlay and resets the
    counter, taking the first dropped file as attachment unless a turn is
    loading (then, or without files, the attachment is kept). *)
Theorem drag_overlay_is_hidden_after_leave_or_drop :
  forall s flags isLoading files,
    let s' := Drag.leaves (length flags) (Drag.enters flags s) in
    let d := Drag.handleDrop isLoading files s in
    (Drag.dragCounter s = 0%Z -> flags <> [] ->
     Drag.dragCounter s' = 0%Z /\ Drag.isDragging s' = false
     /\ Drag.attachment s' = Drag.attachment s)
    /\ Drag.dragCounter d = 0%Z /\ Drag.isDragging d = false
    /\ Drag.attachment d =
       (if isLoading then Drag.attachment s
        else match files with f :: _ => Some f | [] => Drag.attachment s end).
Proof.
  intros s flags isLoading files s' d. split; [|now repeat split].
  intros Z0 Hne. subst s'.
  destruct flags as [|f flags]; [contradiction|].
  destruct (enters_counter (f :: flags) s) as [E A].
  destruct (@leaves_to_zero (length flags) (Drag.enters (f :: flags) s)) as (C & D & T).
  - rewrite E, Z0. cbn [length]. lia.
  - cbn [length]. rewrite C, D, T, A. now repeat split.
Qed.

Lemma drag_overlay_is_hidden_after_leave_or_drop_witness :
  Drag.isDragging
    (Drag.leaves 3 (Drag.enters [true; false; true] (Drag.mkState 0 false None)))
  = false.
Proof.
  destruct (drag_overlay_is_hidden_after_leave_or_drop
              (Drag.mkState 0 false None) [true; false; true] false []) as [H _].
  apply H.
  - reflexivity.
  - discriminate.
Defined.
